(** * fastapi_qr: marker location and QR compositing (src/app.py)

    A shallow embedding of [find_marker_positions], [add_qr_to_pdf] and the
    request handlers built from them, with the properties the specification
    states about them.

    Modelling conventions.
    - Page coordinates are Python floats in the source; here they are exact
      rationals ([Q]), so [+] and [-] do not round.  [min] and [max] follow
      Python: the first argument is kept unless the second is strictly
      smaller (resp. larger).
    - PyMuPDF ([fitz]) and [qrcode] are external libraries.  A PDF byte
      buffer is represented by what [fitz.open] makes of it; a page is its
      rectangle and its display list, to which every drawing call appends
      (all calls use the default [overlay=True], so later items paint over
      earlier ones).  [draw] is the effect of a drawing call PyMuPDF
      accepts; it refuses coordinates beyond the range of a C float, and
      [draw_checked], [place_qr_checked], [compose_at_checked] and
      [add_qr_to_pdf_checked] are the same code with that refusal.  The text
      search and the QR renderer are parameters of the development.
    - Exceptions are values of [result]; the calls to the libraries that the
      specification talks about are recorded in a trace. *)

From Stdlib Require Import Ascii ZArith QArith Qminmax Lqa Lia.
From stdpp Require Import base option list sorting strings pretty gmap.

Local Open Scope string_scope.
Local Open Scope list_scope.

(** ** Exceptions, results and the trace of library calls *)

Record exn := Raise { exn_class : string; exn_msg : string }.

(** [str(e)] *)
Definition str (e : exn) : string := exn_msg e.

Inductive result (A : Type) : Type :=
| Ok (a : A)
| Err (e : exn).
Arguments Ok {A} a.
Arguments Err {A} e.

Inductive ErrorCorrection := ERROR_CORRECT_L | ERROR_CORRECT_M | ERROR_CORRECT_Q | ERROR_CORRECT_H.

(** Share of the symbol that may be damaged and still decode, in percent
    (the constants of [qrcode.constants]). *)
Definition recovery_percent (l : ErrorCorrection) : Z :=
  match l with
  | ERROR_CORRECT_L => 7
  | ERROR_CORRECT_M => 15
  | ERROR_CORRECT_Q => 25
  | ERROR_CORRECT_H => 30
  end.

(** The arguments of [qrcode.QRCode(...)]. *)
Record QRCode := {
  version : Z;
  error_correction : ErrorCorrection;
  box_size : Z;
  border : Z
}.

Inductive event :=
| EvOpen                                    (* fitz.open(stream=..., filetype="pdf") *)
| EvQrImage (qr : QRCode) (data : string)   (* qr.add_data; qr.make; qr.make_image; save as PNG *)
| EvSave (garbage : Z) (deflate : bool).    (* doc.save(..., garbage=, deflate=) *)

Definition M (A : Type) : Type := (list event * result A)%type.

Definition ret {A} (a : A) : M A := ([], Ok a).
Definition raise {A} (e : exn) : M A := ([], Err e).
Definition emit (ev : event) : M unit := ([ev], Ok tt).
Definition lift {A} (r : result A) : M A := ([], r).

Definition bind {A B} (m : M A) (f : A -> M B) : M B :=
  match m with
  | (tr, Ok a) => let '(tr', r) := f a in (tr ++ tr', r)
  | (tr, Err e) => (tr, Err e)
  end.

#[export] Instance M_ret : MRet M := @ret.
#[export] Instance M_bind : MBind M := fun A B f m => bind m f.

Definition trace {A} (m : M A) : list event := fst m.
Definition outcome {A} (m : M A) : result A := snd m.

(** ** Geometry and pages *)

Record Rect := mkRect { x0 : Q; y0 : Q; x1 : Q; y1 : Q }.

(** [fitz.Rect.width] and [fitz.Rect.height]. *)
Definition Rect_width (r : Rect) : Q := Qmax 0 (x1 r - x0 r).
Definition Rect_height (r : Rect) : Q := Qmax 0 (y1 r - y0 r).

Definition Color : Type := (Q * Q * Q)%type.
Definition white : Color := (1, 1, 1)%Q.
Definition shadow_gray : Color := (8 # 10, 8 # 10, 8 # 10)%Q.
Definition label_blue : Color := (0, 0, 7 # 10)%Q.

Definition bytes : Type := list Byte.byte.

Inductive DrawOp :=
| DrawRect (r : Rect) (color fill : Color)
| InsertImage (r : Rect) (stream : bytes)
| InsertText (point : Q * Q) (text : string) (fontsize : Q)
             (fontname : option string) (color : option Color).

Record Page := mkPage { rect : Rect; contents : list DrawOp }.

Abbreviation Document := (list Page).

Definition page_count (doc : Document) : Z := Z.of_nat (length doc).

(** The byte buffer of an upload, by what [fitz.open] does with it. *)
Inductive pdf_bytes :=
| PdfOf (doc : Document)
| NotPdf (why : string).

Definition fitz_open (pdf_data : pdf_bytes) : M Document :=
  emit EvOpen ;;
  match pdf_data with
  | PdfOf doc => ret doc
  | NotPdf why => raise (Raise "FileDataError" why)
  end.

(** [doc.save(output_bytes, garbage=3, deflate=True)]; [output_bytes.getvalue()].
    Garbage collection and deflation do not touch the page tree. *)
Definition doc_save (doc : Document) (garbage : Z) (deflate : bool) : M pdf_bytes :=
  emit (EvSave garbage deflate) ;;
  ret (PdfOf doc).

(** [page.draw_rect], [page.insert_image], [page.insert_text]. *)
Definition draw (op : DrawOp) (page : Page) : Page :=
  {| rect := rect page; contents := contents page ++ [op] |}.

(** ** Python values and position records *)

Inductive pyval :=
| PyInt (n : Z)
| PyFloat (q : Q)
| PyStr (s : string)
| PyNone.

(** [class SignPosition(BaseModel)] *)
Record SignPosition := mkSignPosition {
  x : Q;
  y : Q;
  page : Z;
  width : option Q;
  height : option Q
}.


(** What [add_qr_to_pdf] iterates over: an object with attributes, or a
    mapping (the add-qr-codes handler passes what [json.loads] returned). *)
Inductive position :=
| PosObject (attrs : gmap string pyval)
| PosDict (d : gmap string pyval).

Definition of_optional (o : option Q) : pyval :=
  match o with Some q => PyFloat q | None => PyNone end.

Definition of_SignPosition (p : SignPosition) : position :=
  PosObject
    (<["x" := PyFloat (x p)]>
     (<["y" := PyFloat (y p)]>
      (<["page" := PyInt (page p)]>
       (<["width" := of_optional (width p)]>
        (<["height" := of_optional (height p)]> ∅))))).

(** ** Python's [min], [max], truth value of an optional string *)

Definition py_min (a b : Q) : Q :=
  match (b ?= a)%Q with Lt => b | _ => a end.

Definition py_max (a b : Q) : Q :=
  match (b ?= a)%Q with Gt => b | _ => a end.

(** [if certificate_id:] is false for [None] and for the empty string. *)
Definition truthy (s : option string) : bool :=
  match s with
  | None => false
  | Some EmptyString => false
  | Some _ => true
  end.

(** ** The monad of plain results *)

Definition result_bind {A B} (r : result A) (f : A -> result B) : result B :=
  match r with Ok a => f a | Err e => Err e end.

#[export] Instance result_ret : MRet result := @Ok.
#[export] Instance result_mbind : MBind result := fun A B f r => result_bind r f.

(** [for a in l: s = body(s, a)], stopping at the first exception. *)
Fixpoint for_each {A S} (l : list A) (body : S -> A -> result S) (s : S) : result S :=
  match l with
  | [] => Ok s
  | a :: l' => match body s a with
               | Ok s' => for_each l' body s'
               | Err e => Err e
               end
  end.

(** ** Access to pages and to the fields of a position *)

(** [doc[i]]: PyMuPDF asserts that [i] is an int, raises
    [IndexError(f"page {i} not in document")] for [i >= page_count] and
    counts a negative [i] from the end. The page comes with its index in the
    page list, where the drawing calls on it take effect. The text of the
    failed assertion quotes [repr(i)], which is not modelled. *)
Definition doc_getitem (doc : Document) (i : pyval) : result (nat * Page) :=
  match i with
  | PyInt n =>
      if (page_count doc <=? n)%Z
      then Err (Raise "IndexError" ("page " +:+ pretty n +:+ " not in document"))
      else
        let k := Z.to_nat (n mod page_count doc) in
        match doc !! k with
        | Some p => Ok (k, p)
        | None => Err (Raise "ValueError" "page not in document")
        end
  | _ => Err (Raise "AssertionError" "Invalid item number")
  end.

(** [pos.name] *)
Definition getattr (attrs : gmap string pyval) (name : string) : result pyval :=
  match attrs !! name with
  | Some v => Ok v
  | None => Err (Raise "AttributeError" name)
  end.

(** [getattr(pos, name, dflt)] and [pos.get(name, dflt)] *)
Definition get_default (m : gmap string pyval) (name : string) (dflt : pyval) : pyval :=
  default dflt (m !! name).

(** A value used as a coordinate in [x + width], [min(...)], [fitz.Rect(...)]. *)
Definition number (v : pyval) : result Q :=
  match v with
  | PyInt n => Ok (inject_Z n)
  | PyFloat q => Ok q
  | _ => Err (Raise "TypeError" "unsupported operand type(s)")
  end.

(** ** Placement of the QR box (src/app.py, lines 158-172) *)

Local Open Scope Q_scope.

Definition qr_size : Q := 60.

Definition adjusted_x (x page_width : Q) : Q :=
  let adjusted_x := py_min (x + 10) (page_width - qr_size - 10) in
  py_max 10 (py_min adjusted_x (page_width - qr_size - 10)).

Definition adjusted_y (y page_height : Q) : Q :=
  let adjusted_y := y - 30 in
  py_max 10 (py_min adjusted_y (page_height - qr_size - 40)).

(** The rectangle handed to [insert_image]. *)
Definition qr_box (ax ay : Q) : Rect :=
  mkRect ax ay (ax + qr_size) (ay + qr_size).

(** The body of the loop once the page and the numbers are known
    (src/app.py, lines 153-214). *)
Definition place_qr (page : Page) (x y width height : Q)
    (img_bytes : bytes) (certificate_id : option string) : Page :=
  let marker_rect := mkRect x y (x + width) (y + height) in
  let page := draw (DrawRect marker_rect white white) page in
  let page_width := Rect_width (rect page) in
  let page_height := Rect_height (rect page) in
  let ax := adjusted_x x page_width in
  let ay := adjusted_y y page_height in
  let page :=
    draw (DrawRect (mkRect (ax - 2) (ay - 2) (ax + qr_size + 4) (ay + qr_size + 4))
            shadow_gray shadow_gray) page in
  let page := draw (DrawRect (mkRect ax ay (ax + qr_size) (ay + qr_size)) white white) page in
  let page := draw (InsertImage (mkRect ax ay (ax + qr_size) (ay + qr_size)) img_bytes) page in
  match certificate_id with
  | Some cert =>
      if truthy certificate_id then
        let text_y := ay + qr_size + 2 in
        let page :=
          draw (InsertText (ax, text_y) "Verified Document" 7
                  (Some "Helvetica-Bold") (Some label_blue)) page in
        draw (InsertText (ax, text_y + 10) cert 6 None None) page
      else page
  | None => page
  end.

Local Close Scope Q_scope.

(** The page and the raw field values of one position
    (src/app.py, lines 137-151). *)
Definition read_position (doc : Document) (pos : position)
  : result (nat * Page * pyval * pyval * pyval * pyval) :=
  match pos with
  | PosObject attrs =>
      match attrs !! "page" with
      | Some page_num =>
          '(k, page) ← doc_getitem doc page_num;
          x ← getattr attrs "x";
          y ← getattr attrs "y";
          let width := get_default attrs "width" (PyInt 120) in
          let height := get_default attrs "height" (PyInt 120) in
          Ok (k, page, x, y, width, height)
      | None => Err (Raise "AttributeError" "get")
      end
  | PosDict d =>
      let page_num := get_default d "page" (PyInt 0) in
      '(k, page) ← doc_getitem doc page_num;
      let x := get_default d "x" (PyInt 50) in
      let y := get_default d "y" (PyInt 50) in
      let width := get_default d "width" (PyInt 120) in
      let height := get_default d "height" (PyInt 120) in
      Ok (k, page, x, y, width, height)
  end.

(** One iteration of [for pos in positions]. *)
Definition compose_at (img_bytes : bytes) (certificate_id : option string)
    (doc : Document) (pos : position) : result Document :=
  '(k, page, x, y, width, height) ← read_position doc pos;
  x ← number x;
  width ← number width;
  y ← number y;
  height ← number height;
  Ok (<[k := place_qr page x y width height img_bytes certificate_id]> doc).

(** ** Responses of the request handlers *)

Record UploadFile := { filename : string; file_data : pdf_bytes }.

Inductive json_body :=
| Positions (positions : list SignPosition)   (* {"positions": [...]} *)
| ErrorBody (error : string)                  (* {"error": ...} *)
| MessageBody (message : string).             (* {"message": ...} *)

(** A returned dict is a 200 response; [FileResponse] carries the content of
    the temporary file it streams. *)
Inductive Response :=
| Returned (body : json_body)
| JSONResponse (status_code : Z) (content : json_body)
| FileResponse (file : pdf_bytes) (media_type : string) (download_name : string)
| HTTPException (status_code : Z) (detail : string).

Definition default_marker : string := "[[SIGN_HERE]]".

(** [enumerate(doc)] *)
Definition enumerate {A} (l : list A) : list (Z * A) :=
  imap (fun i a => (Z.of_nat i, a)) l.

Section App.

(** [page.search_for(marker)]: the rectangles of the matches PyMuPDF
    finds on a page, in the order it reports them. *)
Variable search_for : Page -> string -> list Rect.

(** [qr.add_data(data); qr.make(fit=True); qr.make_image(...)] saved as
    PNG: the bytes of the bitmap, or the exception [qrcode] raises (for
    instance when the data does not fit the largest symbol). *)
Variable qr_png : QRCode -> string -> result bytes.

(** [json.loads(positions_json)] as a list of position records. *)
Variable json_loads : string -> result (list position).

(** src/app.py, lines 89-112 *)
Definition find_marker_positions (pdf_data : pdf_bytes) (marker : string)
  : M (list SignPosition) :=
  doc ← fitz_open pdf_data;
  mret (foldl
          (fun positions '(page_num, page) =>
             let text_instances := search_for page marker in
             foldl
               (fun positions rect =>
                  positions ++
                    [mkSignPosition (x0 rect) (y0 rect) page_num
                       (Some (Rect_width rect)) (Some (Rect_height rect))])
               positions text_instances)
          [] (enumerate doc)).

(** src/app.py, lines 114-221 *)
Definition add_qr_to_pdf (pdf_data : pdf_bytes) (positions : list position)
    (qr_data : string) (certificate_id : option string) : M pdf_bytes :=
  doc ← fitz_open pdf_data;
  let qr := {| version := 1; error_correction := ERROR_CORRECT_H;
               box_size := 10; border := 1 |} in
  emit (EvQrImage qr qr_data);;
  img_bytes ← lift (qr_png qr qr_data);
  doc ← lift (for_each positions (compose_at img_bytes certificate_id) doc);
  doc_save doc 3 true.

(** src/app.py, lines 35-50 *)
Definition detect_sign_positions (file : UploadFile) (marker : string) : Response :=
  match outcome (find_marker_positions (file_data file) marker) with
  | Ok positions => Returned (Positions positions)
  | Err e => HTTPException 500 ("Error processing PDF: " +:+ str e)
  end.

(** src/app.py, lines 52-87 *)
Definition add_qr_codes (file : UploadFile) (positions_json qr_data : string)
    (certificate_id : option string) : Response :=
  match json_loads positions_json with
  | Ok positions =>
      match outcome (add_qr_to_pdf (file_data file) positions qr_data certificate_id) with
      | Ok modified_pdf =>
          FileResponse modified_pdf "application/pdf" ("signed_" +:+ filename file)
      | Err e => HTTPException 500 ("Error adding QR codes: " +:+ str e)
      end
  | Err e => HTTPException 500 ("Error adding QR codes: " +:+ str e)
  end.

(** src/app.py, lines 223-259 *)
Definition detect_and_add_qr (file : UploadFile) (marker qr_data : string)
    (certificate_id : option string) : Response :=
  match outcome (find_marker_positions (file_data file) marker) with
  | Ok positions =>
      match positions with
      | [] =>
          JSONResponse 404
            (ErrorBody ("No marker '" +:+ marker +:+ "' found in the document"))
      | _ :: _ =>
          match outcome (add_qr_to_pdf (file_data file) (of_SignPosition <$> positions)
                           qr_data certificate_id) with
          | Ok modified_pdf =>
              FileResponse modified_pdf "application/pdf" ("signed_" +:+ filename file)
          | Err e => HTTPException 500 ("Error processing PDF: " +:+ str e)
          end
      end
  | Err e => HTTPException 500 ("Error processing PDF: " +:+ str e)
  end.

(** src/app.py, lines 262-276 *)
Definition detect_with_regex (file : UploadFile) (pattern : string) : Response :=
  Returned (MessageBody "Regex-based detection not implemented yet").

End App.

(** ** Stand-ins for the libraries, used to run the code on examples

    A text search that reports one rectangle per text item equal to the
    marker, a renderer whose bitmap is the payload's bytes and refuses
    payloads above the capacity of a version-40 symbol at level H, and a
    parser that knows one empty mapping. *)

Definition sample_search_for (page : Page) (marker : string) : list Rect :=
  omap (fun op =>
          match op with
          | InsertText (px, py) text _ _ _ =>
              if String.eqb text marker
              then Some (mkRect px py (px + 80)%Q (py + 12)%Q)
              else None
          | _ => None
          end) (contents page).

Definition sample_qr_png (qr : QRCode) (data : string) : result bytes :=
  if (String.length data <=? 1273)%nat then Ok (String.list_byte_of_string data)
  else Err (Raise "DataOverflowError" "Invalid version").

Definition sample_json_loads (positions_json : string) : result (list position) :=
  if String.eqb positions_json "[{}]" then Ok [PosDict ∅]
  else Err (Raise "JSONDecodeError" "Expecting value").

Definition text_item (px py : Q) (text : string) : DrawOp :=
  InsertText (px, py) text 11 None None.

(** An A4 page with the marker once at (50, 50), and a second page with
    the marker twice. *)
Definition sample_page1 : Page :=
  mkPage (mkRect 0 0 595 842)
    [text_item 50 30 "Contract"; text_item 50 50 "[[SIGN_HERE]]"].

Definition sample_page2 : Page :=
  mkPage (mkRect 0 0 595 842)
    [text_item 400 800 "[[SIGN_HERE]]"; text_item 72 100 "Annex";
     text_item 580 5 "[[SIGN_HERE]]"].

Definition sample_doc : Document := [sample_page1; sample_page2].

Definition sample_upload : UploadFile :=
  {| filename := "contract.pdf"; file_data := PdfOf sample_doc |}.

Definition sample_payload : string := "https://verify.example/cert/123".

(** The three positions the stand-in search finds in [sample_doc]. *)
Definition sample_positions : list SignPosition :=
  [mkSignPosition 50 50 0 (Some 80%Q) (Some 12%Q);
   mkSignPosition 400 800 1 (Some 80%Q) (Some 12%Q);
   mkSignPosition 580 5 1 (Some 80%Q) (Some 12%Q)].

(** [sample_doc] after [add_qr_to_pdf] on these positions with a
    certificate identifier. *)
Definition sample_signed : Document :=
  Eval vm_compute in
    match outcome (add_qr_to_pdf sample_qr_png (PdfOf sample_doc)
                     (of_SignPosition <$> sample_positions) sample_payload
                     (Some "CERT-123")) with
    | Ok (PdfOf doc) => doc
    | _ => []
    end.

(** A mapping whose position lies far outside the second page. *)
Definition far_away : gmap string pyval :=
  <["x" := PyInt 10000]> (<["y" := PyFloat (-500)]> (<["page" := PyInt 1]> ∅)).

(** An upload that is not a PDF, a payload of 1300 characters, and a small
    environment. *)
Definition sample_not_pdf : UploadFile :=
  {| filename := "notes.txt"; file_data := NotPdf "Failed to open stream" |}.

Definition long_payload : string :=
  String.string_of_list_ascii (replicate 1300 "a"%char).

Definition sample_environ : gmap string string :=
  <["ALLOWED_ORIGINS" := "https://a.example, https://b.example"]>
    (<["ALLOW_CREDENTIALS" := "true"]> ∅).

(** ** What the specification says the Locator returns

    The occurrences of a marker in a document are the matches the text
    search reports, page after page; the Locator is to return one record
    per occurrence, in that order. *)

Definition record_of (page_num : Z) (r : Rect) : SignPosition :=
  mkSignPosition (x0 r) (y0 r) page_num (Some (Rect_width r)) (Some (Rect_height r)).

Definition occurrence_records (search_for : Page -> string -> list Rect)
    (doc : Document) (marker : string) : list SignPosition :=
  mjoin (imap (fun i page => record_of (Z.of_nat i) <$> search_for page marker) doc).

Definition occurrence_count (search_for : Page -> string -> list Rect)
    (doc : Document) (marker : string) : nat :=
  sum_list ((fun page => length (search_for page marker)) <$> doc).

(** ** Notions used to state the properties *)

(** The items [place_qr] appends to a page, in drawing order. *)
Definition qr_items (x y width height ax ay : Q) (img_bytes : bytes)
    (certificate_id : option string) : list DrawOp :=
  [DrawRect (mkRect x y (x + width) (y + height)) white white;
   DrawRect (mkRect (ax - 2) (ay - 2) (ax + qr_size + 4) (ay + qr_size + 4))
     shadow_gray shadow_gray;
   DrawRect (qr_box ax ay) white white;
   InsertImage (qr_box ax ay) img_bytes]
  ++ match certificate_id with
     | Some cert =>
         if truthy certificate_id then
           [InsertText (ax, ay + qr_size + 2)%Q "Verified Document" 7
              (Some "Helvetica-Bold") (Some label_blue);
            InsertText (ax, ay + qr_size + 2 + 10)%Q cert 6 None None]
         else []
     | None => []
     end.

(** The items a run of the loop has added to each page, and whose images
    are all the given bitmap. *)
Definition extends_with (img_bytes : bytes) (doc doc' : Document) : Prop :=
  Forall2 (fun p p' =>
             rect p' = rect p /\
             exists added, contents p' = contents p ++ added /\
               forall r stream, InsertImage r stream ∈ added -> stream = img_bytes)
          doc doc'.

(** A record the loop can place on [doc]: its page exists and its box size
    is a number. The Locator only produces such records. *)
Definition placeable (doc : Document) (p : SignPosition) : Prop :=
  (0 <= page p < page_count doc)%Z /\ is_Some (width p) /\ is_Some (height p).

(** The bitmaps on the pages of a document, page after page. *)
Definition page_images (p : Page) : list bytes :=
  omap (fun op => match op with InsertImage _ stream => Some stream | _ => None end)
       (contents p).

Definition images (doc : Document) : list bytes := doc ≫= page_images.

(** The settings [add_qr_to_pdf] builds its [qrcode.QRCode] with. *)
Definition qr_settings : QRCode :=
  {| version := 1; error_correction := ERROR_CORRECT_H; box_size := 10; border := 1 |}.

(** The QR bitmaps a run has asked [qrcode] for. *)
Definition qr_requests (tr : list event) : list (QRCode * string) :=
  omap (fun ev => match ev with EvQrImage qr data => Some (qr, data) | _ => None end) tr.

(** What C3 says the vertical clamp is without a certificate identifier:
    the candidate [y - 30] moved only as far as the box needs to stay in
    [10, page_height-10]. *)
Definition clamp_to_page_only_y (y page_height : Q) : Q :=
  py_max 10 (py_min (y - 30) (page_height - 10 - qr_size))%Q.

(** What C4 says the shadow is: the box grown by [d] on each side. *)
Definition grown_by (d : Q) (r : Rect) : Rect :=
  mkRect (x0 r - d) (y0 r - d) (x1 r + d) (y1 r + d).

Definition Rect_equiv (r r' : Rect) : Prop :=
  (x0 r == x0 r' /\ y0 r == y0 r' /\ x1 r == x1 r' /\ y1 r == y1 r')%Q.

Definition is_text (op : DrawOp) : Prop :=
  match op with InsertText _ _ _ _ _ => True | _ => False end.

(** ** Drawing calls with coordinates PyMuPDF refuses

    PyMuPDF hands the coordinates of a drawing call to MuPDF as C floats and
    raises TypeError for one whose magnitude is beyond the largest C float.
    The loop body below is [place_qr] and [compose_at] call by call, each
    drawing call with that check; the white cover comes first and is drawn
    at the position as given, before any clamp. *)

(** The largest finite C float, 2^128 - 2^104. *)
Definition FLT_MAX : Q := 340282346638528859811704183484516925440.

Definition in_float_range (v : Q) : bool :=
  Qle_bool (- FLT_MAX) v && Qle_bool v FLT_MAX.

Definition rect_in_float_range (r : Rect) : bool :=
  in_float_range (x0 r) && in_float_range (y0 r) &&
  in_float_range (x1 r) && in_float_range (y1 r).

Definition accepted (op : DrawOp) : bool :=
  match op with
  | DrawRect r _ _ => rect_in_float_range r
  | InsertImage r _ => rect_in_float_range r
  | InsertText (px, py) _ _ _ _ => in_float_range px && in_float_range py
  end.

Definition draw_checked (op : DrawOp) (page : Page) : result Page :=
  if accepted op then Ok (draw op page)
  else Err (Raise "TypeError" "argument of type 'float'").

(** src/app.py, lines 153-214 *)
Definition place_qr_checked (page : Page) (x y width height : Q)
    (img_bytes : bytes) (certificate_id : option string) : result Page :=
  let marker_rect := mkRect x y (x + width) (y + height) in
  page ← draw_checked (DrawRect marker_rect white white) page;
  let page_width := Rect_width (rect page) in
  let page_height := Rect_height (rect page) in
  let ax := adjusted_x x page_width in
  let ay := adjusted_y y page_height in
  page ← draw_checked
           (DrawRect (mkRect (ax - 2) (ay - 2) (ax + qr_size + 4) (ay + qr_size + 4))
              shadow_gray shadow_gray) page;
  page ← draw_checked (DrawRect (mkRect ax ay (ax + qr_size) (ay + qr_size)) white white)
           page;
  page ← draw_checked (InsertImage (mkRect ax ay (ax + qr_size) (ay + qr_size)) img_bytes)
           page;
  match certificate_id with
  | Some cert =>
      if truthy certificate_id then
        let text_y := (ay + qr_size + 2)%Q in
        page ← draw_checked
                 (InsertText (ax, text_y) "Verified Document" 7
                    (Some "Helvetica-Bold") (Some label_blue)) page;
        draw_checked (InsertText (ax, text_y + 10)%Q cert 6 None None) page
      else Ok page
  | None => Ok page
  end.

(** One iteration of [for pos in positions] (src/app.py, lines 136-214). *)
Definition compose_at_checked (img_bytes : bytes) (certificate_id : option string)
    (doc : Document) (pos : position) : result Document :=
  '(k, page, x, y, width, height) ← read_position doc pos;
  x ← number x;
  width ← number width;
  y ← number y;
  height ← number height;
  page ← place_qr_checked page x y width height img_bytes certificate_id;
  Ok (<[k := page]> doc).

(** src/app.py, lines 114-221 *)
Definition add_qr_to_pdf_checked (qr_png : QRCode -> string -> result bytes)
    (pdf_data : pdf_bytes) (positions : list position)
    (qr_data : string) (certificate_id : option string) : M pdf_bytes :=
  doc ← fitz_open pdf_data;
  let qr := {| version := 1; error_correction := ERROR_CORRECT_H;
               box_size := 10; border := 1 |} in
  emit (EvQrImage qr qr_data);;
  img_bytes ← lift (qr_png qr qr_data);
  doc ← lift (for_each positions (compose_at_checked img_bytes certificate_id) doc);
  doc_save doc 3 true.

(** A mapping whose x is 10^39, as [json.loads] reads the integer. *)
Definition beyond_float : gmap string pyval :=
  <["x" := PyInt (10 ^ 39)]> (<["y" := PyInt 50]> (<["page" := PyInt 0]> ∅)).

(** ** Configuration read from the environment (src/app.py, lines 19-26) *)

(** [s.split(",")] *)
Fixpoint split_comma (s : string) : list string :=
  match s with
  | EmptyString => [EmptyString]
  | String c s' =>
      if Ascii.eqb c ","%char then EmptyString :: split_comma s'
      else match split_comma s' with
           | w :: ws => String c w :: ws
           | [] => [String c EmptyString]
           end
  end.

(** [os.environ.get(key, dflt)] *)
Definition environ_get (environ : gmap string string) (key dflt : string) : string :=
  default dflt (environ !! key).

(** The keyword arguments of [app.add_middleware(CORSMiddleware, ...)]. *)
Record CORSMiddleware := {
  allow_origins : list string;
  allow_credentials : bool;
  allow_methods : list string;
  allow_headers : list string
}.

Definition cors_middleware (environ : gmap string string) : CORSMiddleware :=
  {| allow_origins := split_comma (environ_get environ "ALLOWED_ORIGINS" "*");
     allow_credentials := String.eqb (environ_get environ "ALLOW_CREDENTIALS" "True") "True";
     allow_methods :=
       split_comma (environ_get environ "ALLOWED_METHODS" "GET,POST,PUT,DELETE");
     allow_headers := split_comma (environ_get environ "ALLOWED_HEADERS" "*") |}.

Definition has_comma (s : string) : Prop := ","%char ∈ String.list_ascii_of_string s.

(** ** Further notions used to state properties *)

(** The value [add_qr_to_pdf] indexes the document with for a position:
    [pos.page], or [pos.get("page", 0)]. *)
Definition page_arg (pos : position) : option pyval :=
  match pos with
  | PosObject attrs => attrs !! "page"
  | PosDict d => Some (get_default d "page" (PyInt 0))
  end.

(** All display-list items of a document, page after page. *)
Definition all_items (doc : Document) : list DrawOp := doc ≫= contents.

(** Rectangles, image and text lines drawn for one position. *)
Definition items_per_position (certificate_id : option string) : nat :=
  if truthy certificate_id then 6%nat else 4%nat.

Definition is_save (ev : event) : Prop :=
  match ev with EvSave _ _ => True | _ => False end.

(** * Properties *)

(** ** The monad *)

Lemma outcome_bind {A B} (m : M A) (f : A -> M B) :
  outcome (m ≫= f) = match outcome m with
                     | Ok a => outcome (f a)
                     | Err e => Err e
                     end.
Proof.
  destruct m as [tr [a|e]]; simpl; [|reflexivity].
  unfold mbind, M_bind, bind, outcome. destruct (f a); reflexivity.
Qed.

Lemma trace_bind {A B} (m : M A) (f : A -> M B) :
  trace (m ≫= f) = match outcome m with
                   | Ok a => trace m ++ trace (f a)
                   | Err e => trace m
                   end.
Proof.
  destruct m as [tr [a|e]]; simpl; [|reflexivity].
  unfold mbind, M_bind, bind, trace. destruct (f a); reflexivity.
Qed.

Lemma outcome_fitz_open doc : outcome (fitz_open (PdfOf doc)) = Ok doc.
Proof. reflexivity. Qed.

Lemma outcome_fitz_open_NotPdf why :
  outcome (fitz_open (NotPdf why)) = Err (Raise "FileDataError" why).
Proof. reflexivity. Qed.

(** ** The Locator *)

Section Locator.

Variable search_for : Page -> string -> list Rect.

Lemma foldl_append_records page_num (rects : list Rect) (positions : list SignPosition) :
  foldl (fun positions rect =>
           positions ++
             [mkSignPosition (x0 rect) (y0 rect) page_num
                (Some (Rect_width rect)) (Some (Rect_height rect))])
        positions rects
  = positions ++ (record_of page_num <$> rects).
Proof.
  revert positions. induction rects as [|r rects IH]; intros positions; simpl.
  - by rewrite app_nil_r.
  - rewrite IH. by rewrite <- app_assoc.
Qed.

Lemma foldl_pages marker (doc : Document) : forall (g : nat -> Z) positions,
  foldl (fun positions '(page_num, page) =>
           let text_instances := search_for page marker in
           foldl (fun positions rect =>
                    positions ++
                      [mkSignPosition (x0 rect) (y0 rect) page_num
                         (Some (Rect_width rect)) (Some (Rect_height rect))])
                 positions text_instances)
        positions (imap (fun i a => (g i, a)) doc)
  = positions ++ mjoin (imap (fun i page => record_of (g i) <$> search_for page marker) doc).
Proof.
  induction doc as [|p doc IH]; intros g positions; simpl.
  - by rewrite app_nil_r.
  - rewrite foldl_append_records.
    rewrite (IH (g ∘ S)). by rewrite <- app_assoc.
Qed.

Lemma find_marker_positions_outcome doc marker :
  outcome (find_marker_positions search_for (PdfOf doc) marker)
  = Ok (occurrence_records search_for doc marker).
Proof.
  unfold find_marker_positions. rewrite outcome_bind, outcome_fitz_open.
  unfold enumerate. rewrite foldl_pages. reflexivity.
Qed.

Lemma length_occurrence_records (doc : Document) marker :
  length (occurrence_records search_for doc marker)
  = occurrence_count search_for doc marker.
Proof.
  unfold occurrence_records, occurrence_count.
  generalize Z.of_nat as g.
  induction doc as [|p doc IH]; intros g; simpl; [done|].
  rewrite length_app, length_fmap. f_equal. apply (IH (g ∘ S)).
Qed.

Lemma occurrence_records_pages (doc : Document) marker p :
  p ∈ occurrence_records search_for doc marker ->
  exists (i : nat) pg r,
    doc !! i = Some pg /\ r ∈ search_for pg marker /\ p = record_of (Z.of_nat i) r.
Proof.
  unfold occurrence_records. intros Hin.
  apply list_elem_of_join in Hin as (l & Hp & Hl).
  apply elem_of_lookup_imap in Hl as (i & pg & -> & Hi).
  apply list_elem_of_fmap in Hp as (r & -> & Hr).
  eauto 6.
Qed.

Lemma StronglySorted_all_equal (c : Z) (l : list Z) :
  Forall (fun z => z = c) l -> StronglySorted Z.le l.
Proof.
  induction 1 as [|z l -> Hl IH]; constructor; [exact IH|].
  eapply Forall_impl; [exact Hl|]. intros ? ->. lia.
Qed.

Lemma occurrence_pages_sorted marker (doc : Document) : forall n : nat,
  let pages :=
    page <$> mjoin (imap (fun i pg => record_of (Z.of_nat (n + i)) <$> search_for pg marker)
                         doc) in
  StronglySorted Z.le pages /\ Forall (fun z => (Z.of_nat n <= z)%Z) pages.
Proof.
  induction doc as [|pg doc IH]; intros n; simpl.
  - split; constructor.
  - rewrite fmap_app, <- list_fmap_compose.
    rewrite (imap_ext _ (fun i pg => record_of (Z.of_nat (S n + i)) <$> search_for pg marker))
      by (intros i x _; simpl; by rewrite Nat.add_succ_r).
    destruct (IH (S n)) as [Hsorted Hall].
    assert (Forall (fun z => z = Z.of_nat (n + 0))
              ((page ∘ record_of (Z.of_nat (n + 0))) <$> search_for pg marker)) as Hhere.
    { apply Forall_fmap, Forall_forall. by intros r _. }
    split.
    + apply StronglySorted_app_2; [| |exact Hsorted].
      * intros z1 z2 Hz1 Hz2.
        rewrite Forall_forall in Hhere, Hall.
        rewrite (Hhere _ Hz1). specialize (Hall _ Hz2). lia.
      * by eapply StronglySorted_all_equal.
    + apply Forall_app. split.
      * eapply Forall_impl; [exact Hhere|]. intros z ->. lia.
      * eapply Forall_impl; [exact Hall|]. intros z Hz. simpl in Hz. lia.
Qed.

(** C1: On every document the Locator returns one record per match the text
    search reports: as many records as the document has occurrences of the
    marker, page after page and within a page in the order of the search
    (so page indices never decrease along the list), each built from its
    match and carrying a page index in [0, page_count). *)
Theorem find_marker_positions_one_per_occurrence (doc : Document) (marker : string) :
  exists positions,
    outcome (find_marker_positions search_for (PdfOf doc) marker) = Ok positions /\
    length positions = occurrence_count search_for doc marker /\
    positions
    = mjoin (imap (fun i page => record_of (Z.of_nat i) <$> search_for page marker) doc) /\
    StronglySorted Z.le (page <$> positions) /\
    Forall (fun p => (0 <= page p < page_count doc)%Z) positions.
Proof.
  exists (occurrence_records search_for doc marker).
  split; [apply find_marker_positions_outcome|].
  split; [apply length_occurrence_records|].
  split; [reflexivity|].
  split; [apply (occurrence_pages_sorted marker doc 0)|].
  apply Forall_forall. intros p Hp.
  apply occurrence_records_pages in Hp as (i & pg & r & Hi & _ & ->).
  apply lookup_lt_Some in Hi. unfold page_count. simpl. lia.
Qed.

End Locator.

(** ** Python's [min] and [max] on rationals *)

Local Open Scope Q_scope.

Lemma py_min_spec (a b : Q) :
  (b < a /\ py_min a b = b) \/ (a <= b /\ py_min a b = a).
Proof.
  unfold py_min. destruct (Qcompare_spec b a) as [H|H|H]; [right|left|right];
    split; try reflexivity; try assumption.
  - rewrite H. apply Qle_refl.
  - apply Qlt_le_weak, H.
Qed.

Lemma py_max_spec (a b : Q) :
  (a < b /\ py_max a b = b) \/ (b <= a /\ py_max a b = a).
Proof.
  unfold py_max. destruct (Qcompare_spec b a) as [H|H|H]; [right|right|left];
    split; try reflexivity; try assumption.
  - rewrite H. apply Qle_refl.
  - apply Qlt_le_weak, H.
Qed.

Ltac py_cases :=
  repeat match goal with
         | |- context [py_min ?a ?b] =>
             let H := fresh "Hmin" in
             destruct (py_min_spec a b) as [[? H]|[? H]]; rewrite H in *
         | |- context [py_max ?a ?b] =>
             let H := fresh "Hmax" in
             destruct (py_max_spec a b) as [[? H]|[? H]]; rewrite H in *
         end.

(** ** The clamp *)

Lemma adjusted_x_lower (x page_width : Q) : 10 <= adjusted_x x page_width.
Proof. unfold adjusted_x, qr_size. py_cases; lra. Qed.

Lemma adjusted_y_lower (y page_height : Q) : 10 <= adjusted_y y page_height.
Proof. unfold adjusted_y, qr_size. py_cases; lra. Qed.

Lemma adjusted_x_upper (x page_width : Q) :
  80 <= page_width -> adjusted_x x page_width + qr_size <= page_width - 10.
Proof. intros Hw. unfold adjusted_x, qr_size. py_cases; lra. Qed.

Lemma adjusted_y_upper (y page_height : Q) :
  80 <= page_height -> adjusted_y y page_height + qr_size <= page_height - 10.
Proof. intros Hh. unfold adjusted_y, qr_size. py_cases; lra. Qed.

(** The text margin: on a page of height 110 or more the box ends at least
    40 units above the bottom edge. *)
Lemma adjusted_y_text_room (y page_height : Q) :
  110 <= page_height -> adjusted_y y page_height + qr_size + 40 <= page_height.
Proof. intros Hh. unfold adjusted_y, qr_size. py_cases; lra. Qed.

(** A candidate that needs no relocation is kept. *)
Lemma adjusted_y_candidate (y page_height : Q) :
  10 <= y - 30 -> y - 30 <= page_height - qr_size - 40 ->
  adjusted_y y page_height == y - 30.
Proof. intros Hlo Hhi. unfold adjusted_y, qr_size in *. py_cases; lra. Qed.

Local Close Scope Q_scope.

(** ** What one iteration draws *)

Lemma rect_draw op page : rect (draw op page) = rect page.
Proof. reflexivity. Qed.

Lemma rect_place_qr page x y width height img_bytes certificate_id :
  rect (place_qr page x y width height img_bytes certificate_id) = rect page.
Proof.
  unfold place_qr. destruct certificate_id as [cert|]; [|reflexivity].
  destruct (truthy (Some cert)); reflexivity.
Qed.

Lemma contents_place_qr page x y width height img_bytes certificate_id :
  contents (place_qr page x y width height img_bytes certificate_id)
  = contents page ++
      qr_items x y width height
        (adjusted_x x (Rect_width (rect page)))
        (adjusted_y y (Rect_height (rect page))) img_bytes certificate_id.
Proof.
  unfold place_qr, qr_items, qr_box.
  destruct certificate_id as [cert|]; [destruct (truthy (Some cert))|];
    simpl; repeat rewrite <- app_assoc; reflexivity.
Qed.

(** ** One iteration of the loop *)

Lemma doc_getitem_in_range (doc : Document) (n : nat) pg :
  doc !! n = Some pg -> doc_getitem doc (PyInt (Z.of_nat n)) = Ok (n, pg).
Proof.
  intros Hn. pose proof (lookup_lt_Some _ _ _ Hn) as Hlt.
  unfold doc_getitem, page_count.
  destruct (Z.leb_spec (Z.of_nat (length doc)) (Z.of_nat n)) as [Hle|_]; [lia|].
  rewrite Z.mod_small by lia. rewrite Nat2Z.id, Hn. reflexivity.
Qed.

Lemma doc_getitem_Ok (doc : Document) i k pg :
  doc_getitem doc i = Ok (k, pg) -> doc !! k = Some pg.
Proof.
  unfold doc_getitem. destruct i as [n| | |]; try discriminate.
  destruct (page_count doc <=? n)%Z; [discriminate|].
  destruct (doc !! Z.to_nat (n mod page_count doc)) as [p|] eqn:Hp; [|discriminate].
  intros [= <- <-]. exact Hp.
Qed.

Lemma read_position_Ok (doc : Document) pos k pg vx vy vw vh :
  read_position doc pos = Ok (k, pg, vx, vy, vw, vh) -> doc !! k = Some pg.
Proof.
  unfold read_position. destruct pos as [attrs|d].
  - destruct (attrs !! "page") as [page_num|]; [|discriminate].
    destruct (doc_getitem doc page_num) as [[k' pg']|e] eqn:Hget; [|discriminate].
    simpl. destruct (getattr attrs "x"); [|discriminate].
    simpl. destruct (getattr attrs "y"); [|discriminate].
    simpl. intros [= <- <- _ _ _ _]. by apply doc_getitem_Ok in Hget.
  - destruct (doc_getitem doc (get_default d "page" (PyInt 0))) as [[k' pg']|e] eqn:Hget;
      [|discriminate].
    simpl. intros [= <- <- _ _ _ _]. by apply doc_getitem_Ok in Hget.
Qed.

Lemma compose_at_Ok img_bytes certificate_id (doc : Document) pos doc' :
  compose_at img_bytes certificate_id doc pos = Ok doc' ->
  exists k pg x y width height,
    doc !! k = Some pg /\
    doc' = <[k := place_qr pg x y width height img_bytes certificate_id]> doc.
Proof.
  unfold compose_at.
  destruct (read_position doc pos) as [[[[[[k pg] vx] vy] vw] vh]|e] eqn:Hread;
    [|discriminate].
  simpl.
  destruct (number vx) as [x|]; [|discriminate]. simpl.
  destruct (number vw) as [w|]; [|discriminate]. simpl.
  destruct (number vy) as [y|]; [|discriminate]. simpl.
  destruct (number vh) as [h|]; [|discriminate]. simpl.
  intros [= <-]. apply read_position_Ok in Hread. eauto 8.
Qed.

Lemma extends_with_refl img_bytes doc : extends_with img_bytes doc doc.
Proof.
  apply Forall_Forall2_diag, Forall_forall. intros p _. split; [done|].
  exists []. split; [by rewrite app_nil_r|]. intros r s Hin. by apply elem_of_nil in Hin.
Qed.

Lemma extends_with_trans img_bytes doc1 doc2 doc3 :
  extends_with img_bytes doc1 doc2 -> extends_with img_bytes doc2 doc3 ->
  extends_with img_bytes doc1 doc3.
Proof.
  unfold extends_with. intros H12. revert doc3.
  induction H12 as [|p1 p2 d1 d2 [Hr (a & Hc & Ha)] _ IH]; intros doc3 H23.
  - by apply Forall2_nil_inv_l in H23 as ->.
  - apply Forall2_cons_inv_l in H23 as (p3 & d3 & [Hr' (a' & Hc' & Ha')] & H23 & ->).
    constructor; [|by apply IH]. split; [congruence|].
    exists (a ++ a'). split; [by rewrite Hc', Hc, app_assoc|].
    intros r s [Hin|Hin]%elem_of_app; eauto.
Qed.

Lemma image_in_qr_items x y width height ax ay img_bytes certificate_id r stream :
  InsertImage r stream ∈ qr_items x y width height ax ay img_bytes certificate_id ->
  r = qr_box ax ay /\ stream = img_bytes.
Proof.
  unfold qr_items. intros [Hin|Hin]%elem_of_app.
  - repeat (apply elem_of_cons in Hin as [Hin|Hin]; [try discriminate|]).
    + by injection Hin as -> ->.
    + by apply elem_of_nil in Hin.
  - destruct certificate_id as [cert|]; [destruct (truthy (Some cert))|].
    + repeat (apply elem_of_cons in Hin as [Hin|Hin]; [discriminate|]).
      by apply elem_of_nil in Hin.
    + by apply elem_of_nil in Hin.
    + by apply elem_of_nil in Hin.
Qed.

Lemma compose_at_extends img_bytes certificate_id (doc : Document) pos doc' :
  compose_at img_bytes certificate_id doc pos = Ok doc' ->
  extends_with img_bytes doc doc'.
Proof.
  intros (k & pg & x & y & w & h & Hk & ->)%compose_at_Ok.
  unfold extends_with. apply Forall2_same_length_lookup.
  split; [by rewrite length_insert|].
  intros i p p' Hp Hp'.
  destruct (decide (i = k)) as [->|Hne].
  - rewrite list_lookup_insert_eq in Hp' by (by eapply lookup_lt_Some).
    assert (p = pg) as -> by congruence. injection Hp' as <-.
    split; [apply rect_place_qr|]. eexists. split; [apply contents_place_qr|].
    intros r s Hin. by apply image_in_qr_items in Hin as [_ ->].
  - rewrite list_lookup_insert_ne in Hp' by done.
    assert (p' = p) as -> by congruence.
    split; [done|]. exists []. split; [by rewrite app_nil_r|].
    intros r s Hin. by apply elem_of_nil in Hin.
Qed.

Lemma for_each_extends img_bytes certificate_id positions : forall (doc doc' : Document),
  for_each positions (compose_at img_bytes certificate_id) doc = Ok doc' ->
  extends_with img_bytes doc doc'.
Proof.
  induction positions as [|pos positions IH]; intros doc doc'; simpl.
  - intros [= <-]. apply extends_with_refl.
  - destruct (compose_at img_bytes certificate_id doc pos) as [doc1|e] eqn:Hstep;
      [|discriminate].
    intros Hrest. eapply extends_with_trans.
    + by apply compose_at_extends in Hstep.
    + by apply IH.
Qed.

Lemma lookup_of_SignPosition (p : SignPosition) :
  match of_SignPosition p with
  | PosObject attrs =>
      attrs !! "page" = Some (PyInt (page p)) /\
      attrs !! "x" = Some (PyFloat (x p)) /\
      attrs !! "y" = Some (PyFloat (y p)) /\
      attrs !! "width" = Some (of_optional (width p)) /\
      attrs !! "height" = Some (of_optional (height p))
  | PosDict _ => False
  end.
Proof. unfold of_SignPosition. repeat split; by simplify_map_eq. Qed.

Lemma compose_at_SignPosition img_bytes certificate_id (doc : Document)
    (p : SignPosition) pg w h :
  (0 <= page p)%Z -> doc !! Z.to_nat (page p) = Some pg ->
  width p = Some w -> height p = Some h ->
  compose_at img_bytes certificate_id doc (of_SignPosition p)
  = Ok (<[Z.to_nat (page p) := place_qr pg (x p) (y p) w h img_bytes certificate_id]> doc).
Proof.
  intros Hpos Hpg Hw Hh.
  pose proof (lookup_of_SignPosition p) as Hl.
  destruct (of_SignPosition p) as [attrs|d]; [|done].
  destruct Hl as (Hlp & Hlx & Hly & Hlw & Hlh).
  unfold compose_at, read_position, getattr, get_default.
  rewrite Hlp, Hlx, Hly, Hlw, Hlh, Hw, Hh.
  rewrite <- (Z2Nat.id (page p)) at 1 by done.
  rewrite (doc_getitem_in_range _ _ _ Hpg). reflexivity.
Qed.

Lemma for_each_SignPositions img_bytes certificate_id (ps : list SignPosition) :
  forall doc : Document,
    Forall (placeable doc) ps ->
    exists doc',
      for_each (of_SignPosition <$> ps) (compose_at img_bytes certificate_id) doc = Ok doc'.
Proof.
  induction ps as [|p ps IH]; intros doc Hall; simpl.
  - by exists doc.
  - apply Forall_cons in Hall as [([Hlo Hhi] & [w Hw] & [h Hh]) Hall].
    unfold page_count in Hhi.
    destruct (lookup_lt_is_Some_2 doc (Z.to_nat (page p))) as [pg Hpg]; [lia|].
    rewrite (compose_at_SignPosition _ _ _ _ pg w h) by done.
    apply IH. eapply Forall_impl; [exact Hall|].
    intros q Hq. unfold placeable, page_count in *. by rewrite length_insert.
Qed.

Lemma occurrence_records_placeable search_for (doc : Document) marker :
  Forall (placeable doc) (occurrence_records search_for doc marker).
Proof.
  apply Forall_forall. intros p Hp.
  apply occurrence_records_pages in Hp as (i & pg & r & Hi & _ & ->).
  apply lookup_lt_Some in Hi. unfold placeable, page_count. simpl.
  repeat split; eauto; lia.
Qed.

Lemma page_images_place_qr pg x y width height img_bytes certificate_id :
  page_images (place_qr pg x y width height img_bytes certificate_id)
  = page_images pg ++ [img_bytes].
Proof.
  unfold page_images. rewrite contents_place_qr, omap_app. f_equal.
  unfold qr_items. destruct certificate_id as [cert|]; [destruct (truthy (Some cert))|];
    reflexivity.
Qed.

Lemma images_insert (doc : Document) k pg x y width height img_bytes certificate_id :
  doc !! k = Some pg ->
  images (<[k := place_qr pg x y width height img_bytes certificate_id]> doc)
  ≡ₚ img_bytes :: images doc.
Proof.
  intros Hk. unfold images.
  rewrite <- (take_drop_middle doc k pg Hk) at 2.
  rewrite insert_take_drop by (by eapply lookup_lt_Some).
  rewrite !bind_app, !bind_cons, page_images_place_qr.
  solve_Permutation.
Qed.

Lemma for_each_images img_bytes certificate_id positions : forall (doc doc' : Document),
  for_each positions (compose_at img_bytes certificate_id) doc = Ok doc' ->
  images doc' ≡ₚ replicate (length positions) img_bytes ++ images doc.
Proof.
  induction positions as [|pos positions IH]; intros doc doc'; simpl.
  - by intros [= <-].
  - destruct (compose_at img_bytes certificate_id doc pos) as [doc1|e] eqn:Hstep;
      [|discriminate].
    intros Hrest. rewrite (IH _ _ Hrest).
    apply compose_at_Ok in Hstep as (k & pg & x & y & w & h & Hk & ->).
    rewrite images_insert by done. by rewrite Permutation_middle.
Qed.

(** ** The Compositor *)

Section Compositor.

Variable qr_png : QRCode -> string -> result bytes.

Lemma add_qr_to_pdf_outcome (doc : Document) positions qr_data certificate_id :
  outcome (add_qr_to_pdf qr_png (PdfOf doc) positions qr_data certificate_id)
  = match qr_png qr_settings qr_data with
    | Ok img_bytes =>
        match for_each positions (compose_at img_bytes certificate_id) doc with
        | Ok doc' => Ok (PdfOf doc')
        | Err e => Err e
        end
    | Err e => Err e
    end.
Proof.
  unfold add_qr_to_pdf, fitz_open, doc_save, emit, lift, mbind, M_bind, bind, mret, M_ret, ret.
  fold qr_settings. simpl.
  destruct (qr_png qr_settings qr_data) as [img|e]; simpl; [|reflexivity].
  destruct (for_each positions (compose_at img certificate_id) doc); reflexivity.
Qed.

Lemma add_qr_to_pdf_NotPdf why positions qr_data certificate_id :
  add_qr_to_pdf qr_png (NotPdf why) positions qr_data certificate_id
  = ([EvOpen], Err (Raise "FileDataError" why)).
Proof. reflexivity. Qed.

Lemma add_qr_to_pdf_trace (doc : Document) positions qr_data certificate_id :
  exists rest,
    trace (add_qr_to_pdf qr_png (PdfOf doc) positions qr_data certificate_id)
    = [EvOpen; EvQrImage qr_settings qr_data] ++ rest /\
    (rest = [] \/ rest = [EvSave 3 true]).
Proof.
  unfold add_qr_to_pdf, fitz_open, doc_save, emit, lift, mbind, M_bind, bind, mret, M_ret, ret.
  fold qr_settings. simpl.
  destruct (qr_png qr_settings qr_data) as [img|e]; simpl; [|eauto].
  destruct (for_each positions (compose_at img certificate_id) doc); simpl; eauto.
Qed.

(** C7: Whenever [add_qr_to_pdf] returns, its input was a document and its
    output is a document with the same number of pages, each page with the
    rectangle, hence the width and height, it had before. *)
Theorem add_qr_to_pdf_keeps_pages pdf_data positions qr_data certificate_id out :
  outcome (add_qr_to_pdf qr_png pdf_data positions qr_data certificate_id) = Ok out ->
  exists doc doc' : Document,
    pdf_data = PdfOf doc /\ out = PdfOf doc' /\
    page_count doc' = page_count doc /\
    Forall2 (fun p p' =>
               rect p' = rect p /\
               Rect_width (rect p') = Rect_width (rect p) /\
               Rect_height (rect p') = Rect_height (rect p)) doc doc'.
Proof.
  destruct pdf_data as [doc|why]; [|by rewrite add_qr_to_pdf_NotPdf].
  rewrite add_qr_to_pdf_outcome.
  destruct (qr_png qr_settings qr_data) as [img|e]; [|discriminate].
  destruct (for_each positions (compose_at img certificate_id) doc) as [doc'|e] eqn:Hloop;
    [|discriminate].
  intros [= <-]. exists doc, doc'. split; [done|]. split; [done|].
  apply for_each_extends in Hloop. unfold extends_with in Hloop.
  split.
  - unfold page_count. by rewrite (Forall2_length _ _ _ Hloop).
  - eapply Forall2_impl; [exact Hloop|].
    intros p p' [Hr _]. by rewrite Hr.
Qed.

(** C8: A run of [add_qr_to_pdf] on a document asks [qrcode] for one bitmap,
    whatever the positions: the one for the payload, at error-correction
    level H, which no level exceeds, with a border of one module. When the
    run returns, every position has put one image on a page and every image
    it put there is that bitmap. *)
Theorem qr_bitmap_generated_once (doc : Document) positions qr_data certificate_id :
  qr_requests (trace (add_qr_to_pdf qr_png (PdfOf doc) positions qr_data certificate_id))
  = [(qr_settings, qr_data)] /\
  error_correction qr_settings = ERROR_CORRECT_H /\
  (forall l, (recovery_percent l <= recovery_percent ERROR_CORRECT_H)%Z) /\
  border qr_settings = 1%Z /\
  forall doc',
    outcome (add_qr_to_pdf qr_png (PdfOf doc) positions qr_data certificate_id)
    = Ok (PdfOf doc') ->
    exists img_bytes,
      qr_png qr_settings qr_data = Ok img_bytes /\
      extends_with img_bytes doc doc' /\
      images doc' ≡ₚ replicate (length positions) img_bytes ++ images doc.
Proof.
  split.
  { destruct (add_qr_to_pdf_trace doc positions qr_data certificate_id)
      as (rest & -> & [-> | ->]); reflexivity. }
  split; [reflexivity|]. split; [by intros []|]. split; [reflexivity|].
  intros doc'. rewrite add_qr_to_pdf_outcome.
  destruct (qr_png qr_settings qr_data) as [img|e]; [|discriminate].
  destruct (for_each positions (compose_at img certificate_id) doc) as [doc1|e] eqn:Hloop;
    [|discriminate].
  intros [= <-]. exists img. split; [done|].
  split; [by eapply for_each_extends|by eapply for_each_images].
Qed.

End Compositor.

(** ** The request handlers *)

Section Handlers.

Variable search_for : Page -> string -> list Rect.
Variable qr_png : QRCode -> string -> result bytes.

Lemma occurrence_records_nil (doc : Document) marker :
  occurrence_count search_for doc marker = 0%nat ->
  occurrence_records search_for doc marker = [].
Proof.
  intros H0. apply nil_length_inv. by rewrite length_occurrence_records.
Qed.

(** C9: On a document without any occurrence of the marker the Locator
    returns the empty list, and the detect-sign-positions handler answers
    with the 200 body [{"positions": []}], not with an error. *)
Theorem no_occurrence_gives_empty_positions (file : UploadFile) (doc : Document) marker :
  file_data file = PdfOf doc ->
  occurrence_count search_for doc marker = 0%nat ->
  outcome (find_marker_positions search_for (file_data file) marker) = Ok [] /\
  detect_sign_positions search_for file marker = Returned (Positions []).
Proof.
  intros Hfile H0. unfold detect_sign_positions. rewrite Hfile.
  rewrite find_marker_positions_outcome, occurrence_records_nil by done. done.
Qed.


End Handlers.

(** ** Placement *)


Lemma image_drawn_at_qr_box pg x y w h img_bytes certificate_id :
  InsertImage
    (qr_box (adjusted_x x (Rect_width (rect pg))) (adjusted_y y (Rect_height (rect pg))))
    img_bytes
  ∈ contents (place_qr pg x y w h img_bytes certificate_id).
Proof.
  rewrite contents_place_qr. apply elem_of_app. right.
  unfold qr_items. apply elem_of_app. left.
  do 3 apply list_elem_of_further. apply list_elem_of_here.
Qed.

(** *** The same iteration when PyMuPDF may refuse a coordinate *)

Lemma FLT_MAX_pos : (10000 <= FLT_MAX)%Q.
Proof. vm_compute. discriminate. Qed.

Lemma in_float_range_spec (v : Q) :
  in_float_range v = true <-> (- FLT_MAX <= v /\ v <= FLT_MAX)%Q.
Proof.
  unfold in_float_range. rewrite andb_true_iff, !Qle_bool_iff. reflexivity.
Qed.

Lemma rect_in_float_range_spec (r : Rect) :
  rect_in_float_range r = true <->
  in_float_range (x0 r) = true /\ in_float_range (y0 r) = true /\
  in_float_range (x1 r) = true /\ in_float_range (y1 r) = true.
Proof.
  unfold rect_in_float_range. rewrite !andb_true_iff. tauto.
Qed.

Lemma draw_checked_accepted op page :
  accepted op = true -> draw_checked op page = Ok (draw op page).
Proof. intros Hop. unfold draw_checked. by rewrite Hop. Qed.

Lemma draw_checked_refused op page :
  accepted op = false ->
  draw_checked op page = Err (Raise "TypeError" "argument of type 'float'").
Proof. intros Hop. unfold draw_checked. by rewrite Hop. Qed.

(** When every call is accepted, the checked body is [place_qr]. *)
Lemma place_qr_checked_accepted pg x y w h img_bytes certificate_id :
  rect_in_float_range (mkRect x y (x + w) (y + h)) = true ->
  (80 <= Rect_width (rect pg))%Q -> in_float_range (Rect_width (rect pg)) = true ->
  (110 <= Rect_height (rect pg))%Q -> in_float_range (Rect_height (rect pg)) = true ->
  place_qr_checked pg x y w h img_bytes certificate_id
  = Ok (place_qr pg x y w h img_bytes certificate_id).
Proof.
  intros Hcover Hpw Hpwr Hph Hphr.
  apply in_float_range_spec in Hpwr as [_ Hpwr].
  apply in_float_range_spec in Hphr as [_ Hphr].
  pose proof FLT_MAX_pos as Hmax.
  pose proof (adjusted_x_lower x (Rect_width (rect pg))) as Hx1.
  pose proof (adjusted_x_upper x (Rect_width (rect pg)) Hpw) as Hx2.
  pose proof (adjusted_y_lower y (Rect_height (rect pg))) as Hy1.
  pose proof (adjusted_y_text_room y (Rect_height (rect pg)) Hph) as Hy2.
  unfold qr_size in Hx2, Hy2.
  unfold place_qr_checked, place_qr.
  rewrite (draw_checked_accepted (DrawRect (mkRect x y (x + w) (y + h)) white white))
    by exact Hcover.
  cbn [mbind result_mbind result_bind]. rewrite !rect_draw.
  set (ax := adjusted_x x (Rect_width (rect pg))) in *.
  set (ay := adjusted_y y (Rect_height (rect pg))) in *.
  assert (forall v, (8 <= v)%Q -> (v <= Rect_width (rect pg))%Q -> in_float_range v = true)
    as Hxr by (intros v ? ?; apply in_float_range_spec; split; lra).
  assert (forall v, (8 <= v)%Q -> (v <= Rect_height (rect pg))%Q -> in_float_range v = true)
    as Hyr by (intros v ? ?; apply in_float_range_spec; split; lra).
  rewrite draw_checked_accepted
    by (apply rect_in_float_range_spec; unfold qr_size; cbn [x0 y0 x1 y1];
        repeat split; first [apply Hxr; lra|apply Hyr; lra]).
  cbn [mbind result_mbind result_bind].
  rewrite draw_checked_accepted
    by (apply rect_in_float_range_spec; unfold qr_size; cbn [x0 y0 x1 y1];
        repeat split; first [apply Hxr; lra|apply Hyr; lra]).
  cbn [mbind result_mbind result_bind].
  rewrite draw_checked_accepted
    by (apply rect_in_float_range_spec; unfold qr_size; cbn [x0 y0 x1 y1];
        repeat split; first [apply Hxr; lra|apply Hyr; lra]).
  cbn [mbind result_mbind result_bind].
  destruct certificate_id as [cert|]; [|reflexivity].
  destruct (truthy (Some cert)); [|reflexivity].
  rewrite draw_checked_accepted
    by (unfold qr_size; cbn [accepted]; apply andb_true_iff;
        split; first [apply Hxr; lra|apply Hyr; lra]).
  cbn [mbind result_mbind result_bind].
  rewrite draw_checked_accepted
    by (unfold qr_size; cbn [accepted]; apply andb_true_iff;
        split; first [apply Hxr; lra|apply Hyr; lra]).
  reflexivity.
Qed.

Lemma draw_checked_Ok op page page' :
  draw_checked op page = Ok page' -> page' = draw op page.
Proof. unfold draw_checked. destruct (accepted op); [by intros [= <-]|discriminate]. Qed.

Ltac step_draw :=
  match goal with
  | |- context [draw_checked ?op ?p] =>
      let H := fresh "Hdraw" in
      destruct (draw_checked op p) as [?|?] eqn:H;
      [apply draw_checked_Ok in H; subst|discriminate];
      cbn [mbind result_mbind result_bind]
  end.

(** Whenever the checked body returns, it returns what [place_qr] gives. *)
Lemma place_qr_checked_Ok pg x y w h img_bytes certificate_id pg' :
  place_qr_checked pg x y w h img_bytes certificate_id = Ok pg' ->
  pg' = place_qr pg x y w h img_bytes certificate_id.
Proof.
  unfold place_qr_checked, place_qr.
  do 4 step_draw.
  destruct certificate_id as [cert|]; [|by intros [= <-]].
  destruct (truthy (Some cert)); [|by intros [= <-]].
  do 2 step_draw. by intros [= <-].
Qed.

Lemma compose_at_checked_Ok img_bytes certificate_id (doc doc' : Document) pos :
  compose_at_checked img_bytes certificate_id doc pos = Ok doc' ->
  compose_at img_bytes certificate_id doc pos = Ok doc'.
Proof.
  unfold compose_at_checked, compose_at.
  destruct (read_position doc pos) as [[[[[[k pg] vx] vy] vw] vh]|e]; [|discriminate].
  simpl.
  destruct (number vx) as [x|]; [|discriminate]. simpl.
  destruct (number vw) as [w|]; [|discriminate]. simpl.
  destruct (number vy) as [y|]; [|discriminate]. simpl.
  destruct (number vh) as [h|]; [|discriminate]. simpl.
  destruct (place_qr_checked pg x y w h img_bytes certificate_id) as [pg'|e] eqn:Hplace;
    [|discriminate].
  simpl. intros [= <-]. by rewrite (place_qr_checked_Ok _ _ _ _ _ _ _ _ Hplace).
Qed.

(** Every run [add_qr_to_pdf_checked] completes is a run of
    [add_qr_to_pdf] with the same result. *)
Lemma add_qr_to_pdf_checked_Ok qr_png pdf_data positions qr_data certificate_id out :
  outcome (add_qr_to_pdf_checked qr_png pdf_data positions qr_data certificate_id) = Ok out ->
  outcome (add_qr_to_pdf qr_png pdf_data positions qr_data certificate_id) = Ok out.
Proof.
  destruct pdf_data as [doc|why]; [|discriminate].
  rewrite add_qr_to_pdf_outcome.
  unfold add_qr_to_pdf_checked, fitz_open, doc_save, emit, lift, mbind, M_bind, bind,
    mret, M_ret, ret, outcome.
  fold qr_settings. simpl.
  destruct (qr_png qr_settings qr_data) as [img|e]; simpl; [|discriminate].
  assert (forall cur cur' : Document,
            for_each positions (compose_at_checked img certificate_id) cur = Ok cur' ->
            for_each positions (compose_at img certificate_id) cur = Ok cur') as Hloop.
  { induction positions as [|pos positions IH]; intros cur cur'; simpl; [done|].
    destruct (compose_at_checked img certificate_id cur pos) as [next|e] eqn:Hstep;
      [|discriminate].
    rewrite (compose_at_checked_Ok _ _ _ _ _ Hstep). apply IH. }
  destruct (for_each positions (compose_at_checked img certificate_id) doc) as [doc'|e]
    eqn:Hrun; simpl; [|discriminate].
  intros [= <-]. by rewrite (Hloop _ _ Hrun).
Qed.

Lemma place_qr_checked_cover_refused pg x y w h img_bytes certificate_id :
  rect_in_float_range (mkRect x y (x + w) (y + h)) = false ->
  place_qr_checked pg x y w h img_bytes certificate_id
  = Err (Raise "TypeError" "argument of type 'float'").
Proof.
  intros Hcover. unfold place_qr_checked.
  by rewrite (draw_checked_refused (DrawRect (mkRect x y (x + w) (y + h)) white white)).
Qed.

Lemma compose_at_checked_numbers img_bytes certificate_id (doc : Document) pos
    k pg vx vy vw vh x y w h :
  read_position doc pos = Ok (k, pg, vx, vy, vw, vh) ->
  number vx = Ok x -> number vy = Ok y -> number vw = Ok w -> number vh = Ok h ->
  compose_at_checked img_bytes certificate_id doc pos
  = match place_qr_checked pg x y w h img_bytes certificate_id with
    | Ok page => Ok (<[k := page]> doc)
    | Err e => Err e
    end.
Proof.
  intros Hread Hx Hy Hw Hh. unfold compose_at_checked. rewrite Hread. simpl.
  rewrite Hx. simpl. rewrite Hw. simpl. rewrite Hy. simpl. rewrite Hh. reflexivity.
Qed.

(** C2 (amended): Take any position record, object or mapping, whose page
    exists and whose fields are numbers, on a page at least 80 wide and 120
    high. Wherever its x and y lie, the clamp puts the QR box with its left
    and right edges in [10, page_width-10] and its top and bottom edges in
    [10, page_height-10]. When the corners of the marker rectangle
    (x, y, x+width, y+height) are within the range of a C float, the
    iteration returns without an exception and draws the QR image in that
    box; when one of them is beyond it, the white cover drawn before the
    clamp makes the iteration raise. *)
Theorem qr_box_clamped_when_cover_accepted img_bytes certificate_id (doc : Document) pos
    k pg vx vy vw vh x y w h :
  read_position doc pos = Ok (k, pg, vx, vy, vw, vh) ->
  number vx = Ok x -> number vy = Ok y -> number vw = Ok w -> number vh = Ok h ->
  (80 <= Rect_width (rect pg))%Q -> (120 <= Rect_height (rect pg))%Q ->
  let page_width := Rect_width (rect pg) in
  let page_height := Rect_height (rect pg) in
  let box := qr_box (adjusted_x x page_width) (adjusted_y y page_height) in
  (10 <= x0 box /\ x1 box <= page_width - 10 /\
   10 <= y0 box /\ y1 box <= page_height - 10)%Q /\
  (rect_in_float_range (mkRect x y (x + w) (y + h)) = true ->
   in_float_range page_width = true -> in_float_range page_height = true ->
   compose_at_checked img_bytes certificate_id doc pos
   = Ok (<[k := place_qr pg x y w h img_bytes certificate_id]> doc) /\
   InsertImage box img_bytes ∈ contents (place_qr pg x y w h img_bytes certificate_id) /\
   forall r stream,
     InsertImage r stream
     ∈ qr_items x y w h (adjusted_x x page_width) (adjusted_y y page_height)
         img_bytes certificate_id -> r = box) /\
  (rect_in_float_range (mkRect x y (x + w) (y + h)) = false ->
   compose_at_checked img_bytes certificate_id doc pos
   = Err (Raise "TypeError" "argument of type 'float'")).
Proof.
  intros Hread Hx Hy Hw Hh Hpw Hph page_width page_height box.
  rewrite (compose_at_checked_numbers _ _ _ _ _ _ _ _ _ _ _ _ _ _ Hread Hx Hy Hw Hh).
  split; [|split].
  - subst box. simpl. repeat split.
    + apply adjusted_x_lower.
    + apply adjusted_x_upper, Hpw.
    + apply adjusted_y_lower.
    + apply adjusted_y_upper. subst page_height. lra.
  - intros Hcover Hpwr Hphr.
    rewrite place_qr_checked_accepted; try done; [|subst page_height; lra].
    split; [reflexivity|]. split; [apply image_drawn_at_qr_box|].
    intros r s Hin. by apply image_in_qr_items in Hin as [-> _].
  - intros Hcover. by rewrite place_qr_checked_cover_refused.
Qed.

(** C3 (amended): The 40-unit margin for the certificate text is part of
    the clamp whether or not a certificate identifier is supplied. On a page
    at least 80 wide and 110 high, for every certificate identifier and for
    none, the QR image is drawn at the same box, which lies in
    [10, page_width-10] horizontally and in [10, page_height-40]
    vertically. *)
Theorem text_margin_applied_unconditionally pg x y w h img_bytes :
  (80 <= Rect_width (rect pg))%Q -> (110 <= Rect_height (rect pg))%Q ->
  let page_width := Rect_width (rect pg) in
  let page_height := Rect_height (rect pg) in
  let box := qr_box (adjusted_x x page_width) (adjusted_y y page_height) in
  (forall certificate_id,
     InsertImage box img_bytes ∈ contents (place_qr pg x y w h img_bytes certificate_id) /\
     forall r stream,
       InsertImage r stream
       ∈ qr_items x y w h (adjusted_x x page_width) (adjusted_y y page_height)
           img_bytes certificate_id -> r = box) /\
  (10 <= x0 box /\ x1 box <= page_width - 10 /\
   10 <= y0 box /\ y1 box <= page_height - 40)%Q.
Proof.
  intros Hpw Hph page_width page_height box. split.
  - intros certificate_id. split; [apply image_drawn_at_qr_box|].
    intros r s Hin. by apply image_in_qr_items in Hin as [-> _].
  - subst box. simpl. repeat split.
    + apply adjusted_x_lower.
    + apply adjusted_x_upper, Hpw.
    + apply adjusted_y_lower.
    + pose proof (adjusted_y_text_room y page_height Hph). lra.
Qed.

(** C4 (amended): For each position the Compositor appends to the page,
    after the white cover of the marker, a gray rectangle that reaches 2
    units beyond the QR box on the left and top and 4 units beyond it on the
    right and bottom, then a white rectangle equal to the QR box, then the
    QR image in the QR box, in this order; only text comes after. *)
Theorem shadow_background_image_in_order pg x y w h img_bytes certificate_id :
  let box :=
    qr_box (adjusted_x x (Rect_width (rect pg))) (adjusted_y y (Rect_height (rect pg))) in
  exists shadow text_items,
    contents (place_qr pg x y w h img_bytes certificate_id)
    = contents pg ++
        [DrawRect (mkRect x y (x + w) (y + h)) white white;
         DrawRect shadow shadow_gray shadow_gray;
         DrawRect box white white;
         InsertImage box img_bytes] ++ text_items /\
    (x0 shadow == x0 box - 2 /\ y0 shadow == y0 box - 2 /\
     x1 shadow == x1 box + 4 /\ y1 shadow == y1 box + 4)%Q /\
    Forall is_text text_items.
Proof.
  intros box. rewrite contents_place_qr. unfold qr_items. fold box.
  eexists _, _. split; [reflexivity|]. split.
  - subst box. simpl. repeat split; lra.
  - destruct certificate_id as [cert|]; [destruct (truthy (Some cert))|];
      repeat constructor.
Qed.

(** ** Defaults for absent fields *)

Lemma get_default_insert_absent (m : gmap string pyval) key dflt :
  m !! key = None -> get_default (<[key := dflt]> m) key dflt = get_default m key dflt.
Proof. intros Hm. unfold get_default. by rewrite lookup_insert_eq, Hm. Qed.

Lemma get_default_insert_ne (m : gmap string pyval) key key' v dflt :
  key <> key' -> get_default (<[key := v]> m) key' dflt = get_default m key' dflt.
Proof. intros Hne. unfold get_default. by rewrite lookup_insert_ne. Qed.

Lemma getattr_insert_ne (m : gmap string pyval) key key' v :
  key <> key' -> getattr (<[key := v]> m) key' = getattr m key'.
Proof. intros Hne. unfold getattr. by rewrite lookup_insert_ne. Qed.

Ltac other_keys :=
  repeat first
    [ rewrite get_default_insert_ne by discriminate
    | rewrite getattr_insert_ne by discriminate
    | rewrite lookup_insert_ne by discriminate ].




(** C10: A mapping without "x" is treated exactly as the same mapping with
    x = 50, one without "y" as with y = 50, one without "page" as with
    page = 0. On a document with a first page the empty mapping is accepted:
    the iteration draws on page 0 for the position (50, 50) with box size
    120 by 120, and [add_qr_to_pdf] returns the document so modified. *)
Theorem missing_keys_default_to_50_50_page_0 img_bytes certificate_id (doc : Document)
    (d : gmap string pyval) :
  (d !! "x" = None ->
   compose_at img_bytes certificate_id doc (PosDict d)
   = compose_at img_bytes certificate_id doc (PosDict (<["x" := PyInt 50]> d))) /\
  (d !! "y" = None ->
   compose_at img_bytes certificate_id doc (PosDict d)
   = compose_at img_bytes certificate_id doc (PosDict (<["y" := PyInt 50]> d))) /\
  (d !! "page" = None ->
   compose_at img_bytes certificate_id doc (PosDict d)
   = compose_at img_bytes certificate_id doc (PosDict (<["page" := PyInt 0]> d))) /\
  (forall pg rest,
     doc = pg :: rest ->
     let drawn := place_qr pg 50 50 120 120 img_bytes certificate_id in
     compose_at img_bytes certificate_id doc (PosDict ∅) = Ok (drawn :: rest) /\
     contents drawn
     = contents pg ++
         qr_items 50 50 120 120
           (adjusted_x 50 (Rect_width (rect pg))) (adjusted_y 50 (Rect_height (rect pg)))
           img_bytes certificate_id /\
     forall (qr_png : QRCode -> string -> result bytes) qr_data,
       qr_png qr_settings qr_data = Ok img_bytes ->
       outcome (add_qr_to_pdf qr_png (PdfOf doc) [PosDict ∅] qr_data certificate_id)
       = Ok (PdfOf (drawn :: rest))).
Proof.
  split; [|split; [|split]].
  1-3: intros Habsent; unfold compose_at, read_position;
       rewrite (get_default_insert_absent _ _ _ Habsent); by other_keys.
  intros pg rest -> drawn.
  assert (compose_at img_bytes certificate_id (pg :: rest) (PosDict ∅) = Ok (drawn :: rest))
    as Hstep by reflexivity.
  split; [exact Hstep|]. split; [apply contents_place_qr|].
  intros qr_png qr_data Himg. rewrite add_qr_to_pdf_outcome, Himg. simpl.
  by rewrite Hstep.
Qed.

(** * The theorems on examples *)

Lemma qr_box_clamped_when_cover_accepted_witness :
  (10 <= x0 (qr_box 525 10) /\ x1 (qr_box 525 10) <= 595 - 10 /\
   10 <= y0 (qr_box 525 10) /\ y1 (qr_box 525 10) <= 842 - 10)%Q /\
  compose_at_checked [] None sample_doc (PosDict far_away)
  = Ok (<[1%nat := place_qr sample_page2 10000 (-500) 120 120 [] None]> sample_doc) /\
  InsertImage (qr_box 525 10) []
  ∈ contents (place_qr sample_page2 10000 (-500) 120 120 [] None).
Proof.
  destruct (qr_box_clamped_when_cover_accepted [] None sample_doc (PosDict far_away)
              1%nat sample_page2 (PyInt 10000) (PyFloat (-500)) (PyInt 120) (PyInt 120)
              10000 (-500) 120 120)
    as (Hbox & Hok & _);
    [reflexivity | reflexivity | reflexivity | reflexivity | reflexivity
    | vm_compute; discriminate | vm_compute; discriminate |].
  split; [exact Hbox|].
  destruct Hok as (Hrun & Hin & _); [reflexivity..|].
  split; [exact Hrun|exact Hin].
Defined.

(** C2 (as stated) fails: the mapping with x = 10^39 on the first page of
    [sample_doc], which is 595 by 842, has numeric fields and an existing
    page, and the clamp would put its QR box at x = 525; but the white
    cover is drawn at x = 10^39 first, PyMuPDF refuses it, and the iteration
    and with it [add_qr_to_pdf] raise. *)
Lemma cover_beyond_float_range_raises :
  read_position sample_doc (PosDict beyond_float)
  = Ok (0%nat, sample_page1, PyInt (10 ^ 39), PyInt 50, PyInt 120, PyInt 120) /\
  (80 <= Rect_width (rect sample_page1) /\ 120 <= Rect_height (rect sample_page1))%Q /\
  (adjusted_x (inject_Z (10 ^ 39)) (Rect_width (rect sample_page1)) == 525)%Q /\
  compose_at_checked [] None sample_doc (PosDict beyond_float)
  = Err (Raise "TypeError" "argument of type 'float'") /\
  outcome (add_qr_to_pdf_checked sample_qr_png (PdfOf sample_doc) [PosDict beyond_float]
             sample_payload None)
  = Err (Raise "TypeError" "argument of type 'float'").
Proof.
  split; [vm_compute; reflexivity|].
  split; [split; vm_compute; discriminate|].
  split; [vm_compute; reflexivity|].
  split; vm_compute; reflexivity.
Qed.

Lemma text_margin_applied_unconditionally_witness :
  InsertImage (qr_box 410 742) []
  ∈ contents (place_qr sample_page2 400 800 80 12 [] None) /\
  InsertImage (qr_box 410 742) []
  ∈ contents (place_qr sample_page2 400 800 80 12 [] (Some "CERT-123")) /\
  (y1 (qr_box 410 742) <= 842 - 40)%Q.
Proof.
  destruct (text_margin_applied_unconditionally sample_page2 400 800 80 12 [])
    as [Hsame (_ & _ & _ & Hroom)];
    [vm_compute; discriminate | vm_compute; discriminate |].
  split; [exact (proj1 (Hsame None))|].
  split; [exact (proj1 (Hsame (Some "CERT-123")))|exact Hroom].
Defined.

(** C3 (as stated) fails: without a certificate identifier, a candidate box
    that already lies in [10, page_height-10] (top edge 770, bottom edge 830
    on a page 842 high) is nevertheless moved up to top edge 742, where
    clamping to the page alone would leave it at 770. *)
Lemma no_certificate_still_leaves_text_room :
  (10 <= 800 - 30 /\ 800 - 30 + qr_size <= Rect_height (rect sample_page2) - 10)%Q /\
  last (contents (place_qr sample_page2 400 800 80 12 [] None))
  = Some (InsertImage (qr_box 410 742) []) /\
  (clamp_to_page_only_y 800 (Rect_height (rect sample_page2)) == 770)%Q /\
  ~ (adjusted_y 800 (Rect_height (rect sample_page2))
     == clamp_to_page_only_y 800 (Rect_height (rect sample_page2)))%Q.
Proof.
  split; [split; vm_compute; discriminate|].
  split; [reflexivity|]. split; [reflexivity|].
  vm_compute. discriminate.
Qed.

(** C4 (as stated) fails: for the marker at (50, 50) on [sample_page1] the
    QR box is (60, 20, 120, 80) and the gray rectangle drawn under it is
    (58, 18, 124, 84), not the box grown by 2 on each side. *)
Lemma shadow_not_two_units_on_each_side :
  exists shadow,
    contents (place_qr sample_page1 50 50 80 12 [] None)
    = contents sample_page1 ++
        [DrawRect (mkRect 50 50 130 62) white white;
         DrawRect shadow shadow_gray shadow_gray;
         DrawRect (qr_box 60 20) white white;
         InsertImage (qr_box 60 20) []] /\
    shadow = mkRect 58 18 124 84 /\
    ~ Rect_equiv shadow (grown_by 2 (qr_box 60 20)).
Proof.
  exists (mkRect 58 18 124 84). split; [reflexivity|]. split; [reflexivity|].
  intros (_ & _ & Hright & _). vm_compute in Hright. discriminate.
Qed.



Lemma sample_signed_outcome :
  outcome (add_qr_to_pdf sample_qr_png (PdfOf sample_doc)
             (of_SignPosition <$> sample_positions) sample_payload (Some "CERT-123"))
  = Ok (PdfOf sample_signed).
Proof. vm_compute. reflexivity. Qed.

Lemma add_qr_to_pdf_keeps_pages_witness :
  page_count sample_signed = page_count sample_doc /\
  Forall2 (fun p p' =>
             rect p' = rect p /\
             Rect_width (rect p') = Rect_width (rect p) /\
             Rect_height (rect p') = Rect_height (rect p)) sample_doc sample_signed.
Proof.
  destruct (add_qr_to_pdf_keeps_pages sample_qr_png (PdfOf sample_doc)
              (of_SignPosition <$> sample_positions) sample_payload (Some "CERT-123")
              (PdfOf sample_signed) sample_signed_outcome)
    as (doc & doc' & Hin & Hout & Hcount & Hdims).
  injection Hin as <-. injection Hout as <-. split; [exact Hcount|exact Hdims].
Defined.

Lemma qr_bitmap_generated_once_witness :
  qr_requests (trace (add_qr_to_pdf sample_qr_png (PdfOf sample_doc)
                        (of_SignPosition <$> sample_positions) sample_payload
                        (Some "CERT-123")))
  = [(qr_settings, sample_payload)] /\
  images sample_signed
  ≡ₚ replicate 3 (String.list_byte_of_string sample_payload) ++ images sample_doc.
Proof.
  destruct (qr_bitmap_generated_once sample_qr_png sample_doc
              (of_SignPosition <$> sample_positions) sample_payload (Some "CERT-123"))
    as (Honce & _ & _ & _ & Hreuse).
  split; [exact Honce|].
  destruct (Hreuse sample_signed sample_signed_outcome) as (img & Himg & _ & Himages).
  injection Himg as <-. exact Himages.
Defined.

Lemma no_occurrence_gives_empty_positions_witness :
  outcome (find_marker_positions sample_search_for (file_data sample_upload) "[[NOPE]]")
  = Ok [] /\
  detect_sign_positions sample_search_for sample_upload "[[NOPE]]"
  = Returned (Positions []).
Proof.
  exact (no_occurrence_gives_empty_positions sample_search_for sample_upload sample_doc
           "[[NOPE]]" eq_refl eq_refl).
Defined.

Lemma missing_keys_default_to_50_50_page_0_witness :
  compose_at [] None sample_doc (PosDict ∅)
  = compose_at [] None sample_doc (PosDict (<["x" := PyInt 50]> ∅)) /\
  compose_at [] None sample_doc (PosDict ∅)
  = compose_at [] None sample_doc (PosDict (<["y" := PyInt 50]> ∅)) /\
  compose_at [] None sample_doc (PosDict ∅)
  = compose_at [] None sample_doc (PosDict (<["page" := PyInt 0]> ∅)) /\
  outcome (add_qr_to_pdf sample_qr_png (PdfOf sample_doc) [PosDict ∅] sample_payload None)
  = Ok (PdfOf [place_qr sample_page1 50 50 120 120
                 (String.list_byte_of_string sample_payload) None; sample_page2]).
Proof.
  destruct (missing_keys_default_to_50_50_page_0
              (String.list_byte_of_string sample_payload) None sample_doc ∅)
    as (_ & _ & _ & Hempty).
  destruct (missing_keys_default_to_50_50_page_0 [] None sample_doc ∅)
    as (Hx & Hy & Hpage & _).
  split; [exact (Hx eq_refl)|]. split; [exact (Hy eq_refl)|].
  split; [exact (Hpage eq_refl)|].
  destruct (Hempty sample_page1 [sample_page2] eq_refl) as (_ & _ & Hrun).
  exact (Hrun sample_qr_png sample_payload eq_refl).
Defined.

(** The add-qr-codes handler on the positions [[{}]]: the file comes back
    with a QR code on its first page. *)
Example add_qr_codes_empty_mapping :
  add_qr_codes sample_qr_png sample_json_loads sample_upload "[{}]" sample_payload None
  = FileResponse
      (PdfOf [place_qr sample_page1 50 50 120 120
                (String.list_byte_of_string sample_payload) None; sample_page2])
      "application/pdf" "signed_contract.pdf".
Proof. vm_compute. reflexivity. Qed.

Example add_qr_codes_bad_json :
  add_qr_codes sample_qr_png sample_json_loads sample_upload "[{" sample_payload None
  = HTTPException 500 "Error adding QR codes: Expecting value".
Proof. reflexivity. Qed.

(** A page index past the end is an exception, not a silent no-op. *)
Example add_qr_to_pdf_page_out_of_range :
  outcome (add_qr_to_pdf sample_qr_png (PdfOf sample_doc)
             [PosDict (<["page" := PyInt 5]> ∅)] sample_payload None)
  = Err (Raise "IndexError" "page 5 not in document").
Proof. vm_compute. reflexivity. Qed.

(** * Further properties of the code *)

(** ** Runs of [add_qr_to_pdf] *)

Section Runs.

Variable search_for : Page -> string -> list Rect.
Variable qr_png : QRCode -> string -> result bytes.
Variable json_loads : string -> result (list position).

(** A run on a document, with its trace. *)
Lemma add_qr_to_pdf_run (doc : Document) positions qr_data certificate_id :
  add_qr_to_pdf qr_png (PdfOf doc) positions qr_data certificate_id
  = match qr_png qr_settings qr_data with
    | Ok img_bytes =>
        match for_each positions (compose_at img_bytes certificate_id) doc with
        | Ok doc' =>
            ([EvOpen; EvQrImage qr_settings qr_data; EvSave 3 true], Ok (PdfOf doc'))
        | Err e => ([EvOpen; EvQrImage qr_settings qr_data], Err e)
        end
    | Err e => ([EvOpen; EvQrImage qr_settings qr_data], Err e)
    end.
Proof.
  unfold add_qr_to_pdf, fitz_open, doc_save, emit, lift, mbind, M_bind, bind, mret, M_ret, ret.
  fold qr_settings. simpl.
  destruct (qr_png qr_settings qr_data) as [img|e]; simpl; [|reflexivity].
  destruct (for_each positions (compose_at img certificate_id) doc); reflexivity.
Qed.

Lemma compose_at_length img_bytes certificate_id (doc doc' : Document) pos :
  compose_at img_bytes certificate_id doc pos = Ok doc' -> length doc' = length doc.
Proof.
  intros (k & pg & x & y & w & h & _ & ->)%compose_at_Ok. apply length_insert.
Qed.

Lemma read_position_page_arg (doc : Document) pos k pg vx vy vw vh :
  read_position doc pos = Ok (k, pg, vx, vy, vw, vh) ->
  exists v, page_arg pos = Some v /\ doc_getitem doc v = Ok (k, pg).
Proof.
  unfold read_position, page_arg. destruct pos as [attrs|d].
  - destruct (attrs !! "page") as [page_num|]; [|discriminate].
    destruct (doc_getitem doc page_num) as [[k' pg']|e] eqn:Hget; [|discriminate].
    simpl. destruct (getattr attrs "x"); [|discriminate].
    simpl. destruct (getattr attrs "y"); [|discriminate].
    simpl. intros [= <- <- _ _ _ _]. eauto.
  - destruct (doc_getitem doc (get_default d "page" (PyInt 0))) as [[k' pg']|e] eqn:Hget;
      [|discriminate].
    simpl. intros [= <- <- _ _ _ _]. eauto.
Qed.

Lemma compose_at_out_of_range img_bytes certificate_id (doc : Document) pos n :
  page_arg pos = Some (PyInt n) -> (page_count doc <= n)%Z ->
  exists e, compose_at img_bytes certificate_id doc pos = Err e.
Proof.
  intros Harg Hn.
  destruct (compose_at img_bytes certificate_id doc pos) as [doc'|e] eqn:Hc; [|eauto].
  exfalso. unfold compose_at in Hc.
  destruct (read_position doc pos) as [[[[[[k pg] vx] vy] vw] vh]|e] eqn:Hread;
    [|discriminate].
  apply read_position_page_arg in Hread as (v & Hv & Hget).
  rewrite Harg in Hv. injection Hv as <-.
  unfold doc_getitem in Hget.
  destruct (Z.leb_spec (page_count doc) n); [discriminate|lia].
Qed.

Lemma for_each_out_of_range img_bytes certificate_id positions pos n :
  pos ∈ positions -> page_arg pos = Some (PyInt n) ->
  forall doc : Document,
    (page_count doc <= n)%Z ->
    exists e, for_each positions (compose_at img_bytes certificate_id) doc = Err e.
Proof.
  intros Hin Harg. induction Hin as [pos l|pos q l Hin IH]; intros doc Hn; simpl.
  - destruct (compose_at_out_of_range img_bytes certificate_id doc pos n Harg Hn)
      as [e ->]. eauto.
  - destruct (compose_at img_bytes certificate_id doc q) as [doc1|e] eqn:Hq; [|eauto].
    apply IH; [exact Harg|]. apply compose_at_length in Hq. unfold page_count in *. lia.
Qed.

(** X1: If any position of the list names a page index at or beyond the
    page count, [add_qr_to_pdf] raises: no document comes back, whatever
    the other positions are, and [doc.save] is never reached. *)
Theorem add_qr_to_pdf_page_out_of_range_raises (doc : Document) positions
    qr_data certificate_id pos n :
  pos ∈ positions -> page_arg pos = Some (PyInt n) -> (page_count doc <= n)%Z ->
  (exists e,
     outcome (add_qr_to_pdf qr_png (PdfOf doc) positions qr_data certificate_id) = Err e) /\
  Forall (fun ev => ~ is_save ev)
    (trace (add_qr_to_pdf qr_png (PdfOf doc) positions qr_data certificate_id)).
Proof.
  intros Hin Harg Hn. rewrite add_qr_to_pdf_run.
  destruct (qr_png qr_settings qr_data) as [img|e].
  - destruct (for_each_out_of_range img certificate_id positions pos n Hin Harg doc Hn)
      as [e ->].
    split; [by exists e|]. repeat constructor; by intros [].
  - split; [by exists e|]. repeat constructor; by intros [].
Qed.

(** X2: Whatever it is given, the add-qr-codes handler answers in one of
    two ways: with the uploaded document, same page count and page
    rectangles, as the file [signed_<name>], or with status 500 and a detail
    that starts with "Error adding QR codes: ". *)
Theorem add_qr_codes_pdf_or_500 (file : UploadFile) positions_json qr_data certificate_id :
  (exists doc doc' : Document,
     file_data file = PdfOf doc /\
     add_qr_codes qr_png json_loads file positions_json qr_data certificate_id
     = FileResponse (PdfOf doc') "application/pdf" ("signed_" +:+ filename file) /\
     page_count doc' = page_count doc /\
     Forall2 (fun p p' => rect p' = rect p) doc doc') \/
  (exists e,
     add_qr_codes qr_png json_loads file positions_json qr_data certificate_id
     = HTTPException 500 ("Error adding QR codes: " +:+ str e)).
Proof.
  unfold add_qr_codes.
  destruct (json_loads positions_json) as [positions|e]; [|right; eauto].
  destruct (file_data file) as [doc|why] eqn:Hfile.
  - rewrite add_qr_to_pdf_outcome.
    destruct (qr_png qr_settings qr_data) as [img|e]; [|right; eauto].
    destruct (for_each positions (compose_at img certificate_id) doc) as [doc'|e] eqn:Hloop;
      [|right; eauto].
    left. exists doc, doc'. split; [done|]. split; [done|].
    apply for_each_extends in Hloop. unfold extends_with in Hloop.
    split.
    + unfold page_count. by rewrite (Forall2_length _ _ _ Hloop).
    + eapply Forall2_impl; [exact Hloop|]. by intros p p' [Hr _].
  - right. eexists. reflexivity.
Qed.

(** X3: An upload that is not a PDF gets status 500 from each of the three
    handlers that open it, with the library's message after the handler's
    prefix; the marker search and the 404 answer are never reached. *)
Theorem handlers_reject_non_pdf (file : UploadFile) why marker positions_json positions
    qr_data certificate_id :
  file_data file = NotPdf why ->
  json_loads positions_json = Ok positions ->
  detect_sign_positions search_for file marker
  = HTTPException 500 ("Error processing PDF: " +:+ why) /\
  detect_and_add_qr search_for qr_png file marker qr_data certificate_id
  = HTTPException 500 ("Error processing PDF: " +:+ why) /\
  add_qr_codes qr_png json_loads file positions_json qr_data certificate_id
  = HTTPException 500 ("Error adding QR codes: " +:+ why).
Proof.
  intros Hfile Hjson.
  unfold detect_sign_positions, detect_and_add_qr, add_qr_codes.
  rewrite Hfile, Hjson. repeat split.
Qed.

End Runs.

(** ** What a run draws, and where *)

Lemma for_each_ext {A S} (f g : S -> A -> result S) (l : list A) :
  (forall s a, f s a = g s a) -> forall s, for_each l f s = for_each l g s.
Proof.
  intros Hfg. induction l as [|a l IH]; intros s; simpl; [done|].
  rewrite Hfg. destruct (g s a); [apply IH|done].
Qed.

Lemma length_qr_items x y w h ax ay img_bytes certificate_id :
  length (qr_items x y w h ax ay img_bytes certificate_id)
  = items_per_position certificate_id.
Proof.
  unfold qr_items, items_per_position.
  destruct certificate_id as [cert|]; [destruct (truthy (Some cert))|]; reflexivity.
Qed.

Lemma all_items_insert (doc : Document) k pg x y w h img_bytes certificate_id :
  doc !! k = Some pg ->
  all_items (<[k := place_qr pg x y w h img_bytes certificate_id]> doc)
  ≡ₚ qr_items x y w h (adjusted_x x (Rect_width (rect pg)))
       (adjusted_y y (Rect_height (rect pg))) img_bytes certificate_id
     ++ all_items doc.
Proof.
  intros Hk. unfold all_items.
  rewrite <- (take_drop_middle doc k pg Hk) at 2.
  rewrite insert_take_drop by (by eapply lookup_lt_Some).
  rewrite !bind_app, !bind_cons, contents_place_qr.
  solve_Permutation.
Qed.

Lemma for_each_item_count img_bytes certificate_id positions : forall (doc doc' : Document),
  for_each positions (compose_at img_bytes certificate_id) doc = Ok doc' ->
  length (all_items doc')
  = (length (all_items doc) + length positions * items_per_position certificate_id)%nat.
Proof.
  induction positions as [|pos positions IH]; intros doc doc'; simpl.
  - intros [= <-]. lia.
  - destruct (compose_at img_bytes certificate_id doc pos) as [doc1|e] eqn:Hstep;
      [|discriminate].
    intros Hrest. rewrite (IH _ _ Hrest).
    apply compose_at_Ok in Hstep as (k & pg & x & y & w & h & Hk & ->).
    rewrite (all_items_insert _ _ _ _ _ _ _ _ _ Hk), length_app, length_qr_items. lia.
Qed.

Lemma doc_getitem_same_length (doc1 doc2 : Document) v k pg1 :
  length doc1 = length doc2 -> doc_getitem doc1 v = Ok (k, pg1) ->
  exists pg2, doc_getitem doc2 v = Ok (k, pg2).
Proof.
  intros Hlen. unfold doc_getitem, page_count. rewrite Hlen.
  destruct v as [n| | |]; try discriminate.
  destruct (Z.of_nat (length doc2) <=? n)%Z; [discriminate|].
  destruct (doc1 !! Z.to_nat (n mod Z.of_nat (length doc2))) as [p|] eqn:Hp; [|discriminate].
  intros [= <- <-].
  destruct (lookup_lt_is_Some_2 doc2 (Z.to_nat (n mod Z.of_nat (length doc2)))) as [p2 ->];
    [|eauto].
  apply lookup_lt_Some in Hp. lia.
Qed.

Section Drawing.

Variable search_for : Page -> string -> list Rect.
Variable qr_png : QRCode -> string -> result bytes.

(** X4: An empty certificate identifier is no certificate identifier:
    [add_qr_to_pdf] and the detect-and-add-qr handler do exactly the same
    with the empty string as with None. *)
Theorem empty_certificate_is_no_certificate (file : UploadFile) pdf_data positions
    marker qr_data :
  add_qr_to_pdf qr_png pdf_data positions qr_data (Some EmptyString)
  = add_qr_to_pdf qr_png pdf_data positions qr_data None /\
  detect_and_add_qr search_for qr_png file marker qr_data (Some EmptyString)
  = detect_and_add_qr search_for qr_png file marker qr_data None.
Proof.
  assert (forall pdf ps,
            add_qr_to_pdf qr_png pdf ps qr_data (Some EmptyString)
            = add_qr_to_pdf qr_png pdf ps qr_data None) as Hsame.
  { intros [doc|why] ps; [|reflexivity]. rewrite !add_qr_to_pdf_run.
    destruct (qr_png qr_settings qr_data) as [img|e]; [|reflexivity].
    by rewrite (for_each_ext (compose_at img (Some EmptyString)) (compose_at img None)). }
  split; [apply Hsame|]. unfold detect_and_add_qr.
  destruct (outcome (find_marker_positions search_for (file_data file) marker))
    as [[|p ps]|e]; [reflexivity|by rewrite Hsame|reflexivity].
Qed.

(** X5: A run that returns has only appended to the display lists: every
    page's earlier items are still there, in front, and the document holds
    4 more items per position, or 6 per position when a certificate
    identifier is drawn. *)
Theorem add_qr_to_pdf_only_appends (doc doc' : Document) positions qr_data certificate_id :
  outcome (add_qr_to_pdf qr_png (PdfOf doc) positions qr_data certificate_id)
  = Ok (PdfOf doc') ->
  Forall2 (fun p p' => contents p `prefix_of` contents p') doc doc' /\
  length (all_items doc')
  = (length (all_items doc) + length positions * items_per_position certificate_id)%nat.
Proof.
  rewrite add_qr_to_pdf_outcome.
  destruct (qr_png qr_settings qr_data) as [img|e]; [|discriminate].
  destruct (for_each positions (compose_at img certificate_id) doc) as [doc1|e] eqn:Hloop;
    [|discriminate].
  intros [= <-]. split; [|by eapply for_each_item_count].
  apply for_each_extends in Hloop. eapply Forall2_impl; [exact Hloop|].
  intros p p' (_ & added & -> & _). by exists added.
Qed.

(** X6: A page that no position of the list is resolved to comes back as
    it was. *)
Theorem untargeted_page_untouched (doc doc' : Document) positions qr_data certificate_id
    (i : nat) :
  outcome (add_qr_to_pdf qr_png (PdfOf doc) positions qr_data certificate_id)
  = Ok (PdfOf doc') ->
  (forall pos v k pg,
     pos ∈ positions -> page_arg pos = Some v -> doc_getitem doc v = Ok (k, pg) -> k <> i) ->
  doc' !! i = doc !! i.
Proof.
  rewrite add_qr_to_pdf_outcome.
  destruct (qr_png qr_settings qr_data) as [img|e]; [|discriminate].
  destruct (for_each positions (compose_at img certificate_id) doc) as [doc1|e] eqn:Hloop;
    [|discriminate].
  intros [= <-] Hother.
  assert (forall cur : Document,
            length cur = length doc ->
            for_each positions (compose_at img certificate_id) cur = Ok doc1 ->
            doc1 !! i = cur !! i) as Hgen; [|by apply Hgen].
  clear Hloop. induction positions as [|pos positions IH]; intros cur Hlen; simpl.
  - by intros [= <-].
  - destruct (compose_at img certificate_id cur pos) as [next|e] eqn:Hstep; [|discriminate].
    intros Hrest.
    rewrite (IH (fun p v k pg Hp => Hother p v k pg (list_elem_of_further _ _ _ Hp)) next);
      [| |exact Hrest].
    + unfold compose_at in Hstep.
      destruct (read_position cur pos) as [[[[[[k pg] vx] vy] vw] vh]|e] eqn:Hread;
        [|discriminate].
      apply read_position_page_arg in Hread as (v & Hv & Hget).
      destruct (doc_getitem_same_length cur doc v k pg Hlen Hget) as [pg0 Hget0].
      pose proof (Hother pos v k pg0 (list_elem_of_here _ _) Hv Hget0) as Hne.
      simpl in Hstep.
      destruct (number vx); [|discriminate]. simpl in Hstep.
      destruct (number vw); [|discriminate]. simpl in Hstep.
      destruct (number vy); [|discriminate]. simpl in Hstep.
      destruct (number vh); [|discriminate]. simpl in Hstep.
      injection Hstep as <-. by rewrite list_lookup_insert_ne.
    + apply compose_at_length in Hstep. congruence.
Qed.

(** X7: When [qrcode] refuses the payload, [add_qr_to_pdf] raises that
    exception for every list of positions, the empty one included; the
    detect-and-add-qr handler then answers 500 if the marker occurs, and
    still answers 404 if it does not. *)
Theorem unrenderable_payload (file : UploadFile) (doc : Document) positions marker
    qr_data certificate_id e :
  qr_png qr_settings qr_data = Err e ->
  file_data file = PdfOf doc ->
  outcome (add_qr_to_pdf qr_png (PdfOf doc) positions qr_data certificate_id) = Err e /\
  ((0 < occurrence_count search_for doc marker)%nat ->
   detect_and_add_qr search_for qr_png file marker qr_data certificate_id
   = HTTPException 500 ("Error processing PDF: " +:+ str e)) /\
  (occurrence_count search_for doc marker = 0%nat ->
   detect_and_add_qr search_for qr_png file marker qr_data certificate_id
   = JSONResponse 404
       (ErrorBody ("No marker '" +:+ marker +:+ "' found in the document"))).
Proof.
  intros Hqr Hfile. split; [by rewrite add_qr_to_pdf_outcome, Hqr|].
  unfold detect_and_add_qr. rewrite Hfile, find_marker_positions_outcome.
  pose proof (length_occurrence_records search_for doc marker) as Hlen.
  destruct (occurrence_records search_for doc marker) as [|p ps]; simpl in Hlen.
  - split; [lia|done].
  - split; [|lia]. intros _. by rewrite add_qr_to_pdf_outcome, Hqr.
Qed.

(** X8: When the marker occurs and [qrcode] renders the payload, the file
    the detect-and-add-qr handler sends back is the upload with the same
    page count and exactly one new QR image per occurrence, every one the
    bitmap of the payload. *)
Theorem detect_and_add_qr_one_qr_per_occurrence (file : UploadFile) (doc : Document)
    marker qr_data certificate_id img_bytes :
  file_data file = PdfOf doc ->
  qr_png qr_settings qr_data = Ok img_bytes ->
  (0 < occurrence_count search_for doc marker)%nat ->
  exists doc' : Document,
    detect_and_add_qr search_for qr_png file marker qr_data certificate_id
    = FileResponse (PdfOf doc') "application/pdf" ("signed_" +:+ filename file) /\
    page_count doc' = page_count doc /\
    images doc'
    ≡ₚ replicate (occurrence_count search_for doc marker) img_bytes ++ images doc.
Proof.
  intros Hfile Hqr Hpos.
  unfold detect_and_add_qr. rewrite Hfile, find_marker_positions_outcome.
  pose proof (length_occurrence_records search_for doc marker) as Hlen.
  pose proof (occurrence_records_placeable search_for doc marker) as Hplace.
  destruct (occurrence_records search_for doc marker) as [|p ps] eqn:Hrec;
    [simpl in Hlen; lia|].
  rewrite add_qr_to_pdf_outcome, Hqr.
  destruct (for_each_SignPositions img_bytes certificate_id (p :: ps) doc Hplace)
    as [doc' Hdoc'].
  rewrite Hdoc'. exists doc'. split; [done|]. split.
  - pose proof (for_each_extends _ _ _ _ _ Hdoc') as Hext.
    unfold page_count. by rewrite (Forall2_length _ _ _ Hext).
  - rewrite (for_each_images _ _ _ _ _ Hdoc'), length_fmap, Hlen. done.
Qed.

End Drawing.

(** ** More on placement *)

(** Case analysis on every [py_min] and [py_max], in the goal and in the
    hypotheses. *)
Ltac py_cases_everywhere :=
  repeat match goal with
         | |- context [py_min ?a ?b] =>
             let H := fresh "Hmin" in
             destruct (py_min_spec a b) as [[? H]|[? H]]; rewrite H in *; clear H
         | |- context [py_max ?a ?b] =>
             let H := fresh "Hmax" in
             destruct (py_max_spec a b) as [[? H]|[? H]]; rewrite H in *; clear H
         | _ : context [py_min ?a ?b] |- _ =>
             let H := fresh "Hmin" in
             destruct (py_min_spec a b) as [[? H]|[? H]]; rewrite H in *; clear H
         | _ : context [py_max ?a ?b] |- _ =>
             let H := fresh "Hmax" in
             destruct (py_max_spec a b) as [[? H]|[? H]]; rewrite H in *; clear H
         end.

(** X9: A marker far enough from the page edges gets its QR box exactly
    10 units to the right of and 30 units above its own corner: nothing is
    relocated when 0 <= x <= page_width - 80 and 40 <= y <= page_height - 70. *)
Theorem placement_kept_when_it_fits (x y page_width page_height : Q) :
  (0 <= x)%Q -> (x <= page_width - 80)%Q ->
  (40 <= y)%Q -> (y <= page_height - 70)%Q ->
  (adjusted_x x page_width == x + 10)%Q /\ (adjusted_y y page_height == y - 30)%Q.
Proof.
  intros Hx0 Hx1 Hy0 Hy1. unfold adjusted_x, adjusted_y, qr_size.
  split; py_cases_everywhere; lra.
Qed.

(** X10: On a page too small for the margins the lower bound wins: a page
    narrower than 80 has the box at x = 10 with its right edge beyond
    page_width - 10, a page lower than 110 has it at y = 10, and below 80
    its bottom edge is beyond page_height - 10. *)
Theorem small_page_pins_box_at_10 (x y page_width page_height : Q) :
  ((page_width < 80)%Q ->
   (adjusted_x x page_width == 10)%Q /\
   (page_width - 10 < adjusted_x x page_width + qr_size)%Q) /\
  ((page_height < 110)%Q -> (adjusted_y y page_height == 10)%Q) /\
  ((page_height < 80)%Q -> (page_height - 10 < adjusted_y y page_height + qr_size)%Q).
Proof.
  unfold adjusted_x, adjusted_y, qr_size.
  split; [|split]; intros Hsmall; [split| |]; py_cases_everywhere; lra.
Qed.

(** X11: With a non-empty certificate identifier, on every page, the last
    two items drawn for a position are the label "Verified Document" and
    the identifier, at the box's left edge, 2 and 12 units below the box;
    on a page at least 110 high the second one is at least 28 units above
    the bottom edge. *)
Theorem certificate_text_under_box pg x y w h img_bytes cert :
  cert <> EmptyString ->
  let ax := adjusted_x x (Rect_width (rect pg)) in
  let ay := adjusted_y y (Rect_height (rect pg)) in
  (exists before,
     contents (place_qr pg x y w h img_bytes (Some cert))
     = before ++
         [InsertText (ax, y1 (qr_box ax ay) + 2)%Q "Verified Document" 7
            (Some "Helvetica-Bold") (Some label_blue);
          InsertText (ax, y1 (qr_box ax ay) + 2 + 10)%Q cert 6 None None]) /\
  ((110 <= Rect_height (rect pg))%Q ->
   (y1 (qr_box ax ay) + 2 + 10 <= Rect_height (rect pg) - 28)%Q).
Proof.
  intros Hcert ax ay. split.
  - rewrite contents_place_qr. unfold qr_items. fold ax ay.
    destruct cert as [|c cert]; [done|]. simpl.
    eexists (contents pg ++ [_; _; _; _]). rewrite <- app_assoc. reflexivity.
  - intros Hph. simpl. pose proof (adjusted_y_text_room y _ Hph). fold ay in H. lra.
Qed.

Lemma Rect_width_ordered (r : Rect) : (x0 r <= x1 r)%Q -> (x0 r + Rect_width r == x1 r)%Q.
Proof.
  intros Hr. unfold Rect_width. rewrite Q.max_r by lra. lra.
Qed.

Lemma Rect_height_ordered (r : Rect) : (y0 r <= y1 r)%Q -> (y0 r + Rect_height r == y1 r)%Q.
Proof.
  intros Hr. unfold Rect_height. rewrite Q.max_r by lra. lra.
Qed.

(** X12: The record the Locator builds from a match leads the Compositor
    to paint its white cover over exactly the rectangle of the match: for a
    match rectangle with x0 <= x1 and y0 <= y1 on an existing page, the
    iteration returns and the first item it appends is a white rectangle
    with the corners of the match. *)
Theorem located_marker_is_covered img_bytes certificate_id (doc : Document) (i : nat)
    pg (r : Rect) :
  doc !! i = Some pg -> (x0 r <= x1 r)%Q -> (y0 r <= y1 r)%Q ->
  exists (doc' : Document) pg' cover rest,
    compose_at img_bytes certificate_id doc (of_SignPosition (record_of (Z.of_nat i) r))
    = Ok doc' /\
    doc' !! i = Some pg' /\
    contents pg' = contents pg ++ DrawRect cover white white :: rest /\
    Rect_equiv cover r.
Proof.
  intros Hi Hx Hy.
  pose proof (compose_at_SignPosition img_bytes certificate_id doc
                (record_of (Z.of_nat i) r) pg (Rect_width r) (Rect_height r)) as Hstep.
  simpl in Hstep. rewrite Nat2Z.id in Hstep.
  specialize (Hstep (Nat2Z.is_nonneg i) Hi eq_refl eq_refl).
  eexists _, _, _, _. split; [exact Hstep|].
  split; [apply list_lookup_insert_eq; by eapply lookup_lt_Some|].
  split; [rewrite contents_place_qr; unfold qr_items; simpl; reflexivity|].
  unfold Rect_equiv. simpl.
  pose proof (Rect_width_ordered r Hx). pose proof (Rect_height_ordered r Hy).
  repeat split; lra.
Qed.

(** ** Fields that are present but not numbers *)

Lemma compose_at_dict_Ok img_bytes certificate_id (doc doc' : Document) d :
  compose_at img_bytes certificate_id doc (PosDict d) = Ok doc' ->
  exists x y w h,
    number (get_default d "x" (PyInt 50)) = Ok x /\
    number (get_default d "y" (PyInt 50)) = Ok y /\
    number (get_default d "width" (PyInt 120)) = Ok w /\
    number (get_default d "height" (PyInt 120)) = Ok h.
Proof.
  unfold compose_at, read_position.
  destruct (doc_getitem doc (get_default d "page" (PyInt 0))) as [[k pg]|e]; [|discriminate].
  simpl.
  destruct (number (get_default d "x" (PyInt 50))) as [x|]; [|discriminate]. simpl.
  destruct (number (get_default d "width" (PyInt 120))) as [w|]; [|discriminate]. simpl.
  destruct (number (get_default d "y" (PyInt 50))) as [y|]; [|discriminate]. simpl.
  destruct (number (get_default d "height" (PyInt 120))) as [h|]; [|discriminate]. simpl.
  intros _. eauto 10.
Qed.

(** X13: Defaults are for absent keys only. A mapping in which "x", "y",
    "width" or "height" is present with a null or a string value makes the
    iteration raise, on every document. *)
Theorem non_numeric_field_raises img_bytes certificate_id (doc : Document)
    (d : gmap string pyval) key v :
  key ∈ ["x"; "y"; "width"; "height"] ->
  d !! key = Some v ->
  (v = PyNone \/ exists s, v = PyStr s) ->
  exists e, compose_at img_bytes certificate_id doc (PosDict d) = Err e.
Proof.
  intros Hkey Hd Hv.
  assert (forall dflt q, number (get_default d key dflt) <> Ok q) as Hbad.
  { intros dflt q. unfold get_default. rewrite Hd. simpl.
    destruct Hv as [->|[s ->]]; discriminate. }
  destruct (compose_at img_bytes certificate_id doc (PosDict d)) as [doc'|e] eqn:Hc;
    [|eauto].
  exfalso. apply compose_at_dict_Ok in Hc as (x & y & w & h & Hx & Hy & Hw & Hh).
  repeat (apply elem_of_cons in Hkey as [->|Hkey]); [by eapply Hbad..|].
  by apply elem_of_nil in Hkey.
Qed.

(** ** More on the Locator *)

Section LocatorPages.

Variable search_for : Page -> string -> list Rect.

Lemma filter_records_same (z : Z) (rects : list Rect) :
  filter (fun p => page p = z) (record_of z <$> rects) = record_of z <$> rects.
Proof.
  induction rects as [|r rects IH]; [done|].
  rewrite fmap_cons, filter_cons_True by done. by rewrite IH.
Qed.

Lemma filter_no_record (z : Z) (l : list SignPosition) :
  Forall (fun p => page p <> z) l -> filter (fun p => page p = z) l = [].
Proof.
  induction 1 as [|p l Hp _ IH]; [done|]. by rewrite filter_cons_False.
Qed.

Lemma filter_page_records marker (doc : Document) : forall (n k : nat) pg,
  doc !! k = Some pg ->
  filter (fun p => page p = Z.of_nat (n + k))
    (mjoin (imap (fun i pg => record_of (Z.of_nat (n + i)) <$> search_for pg marker) doc))
  = record_of (Z.of_nat (n + k)) <$> search_for pg marker.
Proof.
  induction doc as [|p0 doc IH]; intros n k pg Hk; [done|].
  simpl. rewrite filter_app.
  rewrite (imap_ext _ (fun i pg => record_of (Z.of_nat (S n + i)) <$> search_for pg marker))
    by (intros i x _; simpl; by rewrite Nat.add_succ_r).
  destruct k as [|k]; simpl in Hk.
  - injection Hk as ->. rewrite filter_records_same.
    rewrite filter_no_record; [by rewrite app_nil_r|].
    destruct (occurrence_pages_sorted search_for marker doc (S n)) as [_ Hall].
    simpl in Hall. rewrite Forall_fmap in Hall. eapply Forall_impl; [exact Hall|].
    intros q Hq. simpl in Hq. lia.
  - rewrite (filter_no_record _ (record_of (Z.of_nat (n + 0)) <$> search_for p0 marker)).
    + simpl. rewrite Nat.add_succ_r. apply (IH (S n) k pg Hk).
    + apply Forall_fmap, Forall_forall. intros r _. simpl. lia.
Qed.

(** X14: In the list the Locator returns, the records with page index i
    are exactly the matches the text search reports on page i, in the
    order it reports them; and every record carries a width and a height
    (the declared default of 100 never shows up). *)
Theorem located_records_by_page (doc : Document) marker (i : nat) pg :
  doc !! i = Some pg ->
  exists positions,
    outcome (find_marker_positions search_for (PdfOf doc) marker) = Ok positions /\
    filter (fun p => page p = Z.of_nat i) positions
    = record_of (Z.of_nat i) <$> search_for pg marker /\
    Forall (fun p => is_Some (width p) /\ is_Some (height p)) positions.
Proof.
  intros Hi. exists (occurrence_records search_for doc marker).
  split; [apply find_marker_positions_outcome|]. split.
  - apply (filter_page_records marker doc 0 i pg Hi).
  - eapply Forall_impl; [apply occurrence_records_placeable|]. by intros p (_ & ? & ?).
Qed.

End LocatorPages.

(** ** The CORS settings *)

Lemma split_comma_nonempty (s : string) : split_comma s <> [].
Proof.
  destruct s as [|c s]; simpl; [done|].
  destruct (Ascii.eqb c ","); [done|]. by destruct (split_comma s).
Qed.

Lemma split_comma_join (s : string) : String.concat "," (split_comma s) = s.
Proof.
  induction s as [|c s IH]; [reflexivity|]. simpl.
  pose proof (split_comma_nonempty s) as Hne.
  destruct (Ascii.eqb_spec c ",") as [->|Hc].
  - destruct (split_comma s) as [|w ws]; [done|]. simpl in *. by rewrite IH.
  - destruct (split_comma s) as [|w ws]; [done|].
    destruct ws as [|w' ws]; simpl in *; by rewrite <- IH.
Qed.

Lemma split_comma_no_comma (s : string) : Forall (fun w => ~ has_comma w) (split_comma s).
Proof.
  unfold has_comma. induction s as [|c s IH]; simpl.
  - constructor; [|constructor]. simpl. apply not_elem_of_nil.
  - destruct (Ascii.eqb_spec c ",") as [->|Hc].
    + constructor; [simpl; apply not_elem_of_nil|exact IH].
    + destruct (split_comma s) as [|w ws].
      * constructor; [|constructor]. simpl.
        intros [?|Hin%elem_of_nil]%elem_of_cons; [congruence|done].
      * apply Forall_cons in IH as [Hw Hws]. constructor; [|exact Hws].
        simpl. intros [?|Hin]%elem_of_cons; [congruence|by apply Hw].
Qed.

(** X15: Each list of the CORS settings is the comma-separated reading of
    its environment variable, or of its default when the variable is unset:
    joining the entries with "," gives the value back, no entry contains a
    comma, and the list is never empty (an empty value gives one empty
    entry; blanks around entries are kept). *)
Theorem cors_lists_split_environment (environ : gmap string string) :
  let cors := cors_middleware environ in
  (String.concat "," (allow_origins cors) = environ_get environ "ALLOWED_ORIGINS" "*" /\
   String.concat "," (allow_methods cors)
   = environ_get environ "ALLOWED_METHODS" "GET,POST,PUT,DELETE" /\
   String.concat "," (allow_headers cors) = environ_get environ "ALLOWED_HEADERS" "*") /\
  Forall (fun w => ~ has_comma w)
    (allow_origins cors ++ allow_methods cors ++ allow_headers cors) /\
  allow_origins cors <> [] /\ allow_methods cors <> [] /\ allow_headers cors <> [].
Proof.
  simpl. split; [repeat split; apply split_comma_join|].
  split; [|repeat split; apply split_comma_nonempty].
  rewrite !Forall_app. repeat split; apply split_comma_no_comma.
Qed.

(** X16: Credentials are allowed exactly when ALLOW_CREDENTIALS is unset or
    is the string "True", spelled that way; any other value, "true" and "1"
    included, turns them off. *)
Theorem cors_credentials_only_for_True (environ : gmap string string) :
  allow_credentials (cors_middleware environ) = true <->
  environ !! "ALLOW_CREDENTIALS" = None \/ environ !! "ALLOW_CREDENTIALS" = Some "True".
Proof.
  unfold cors_middleware, environ_get. simpl.
  destruct (environ !! "ALLOW_CREDENTIALS") as [v|]; simpl.
  - rewrite String.eqb_eq. split; [intros ->; by right|]. by intros [|[= ->]].
  - split; [by left|done].
Qed.

(** * The further properties on examples *)

Lemma add_qr_to_pdf_page_out_of_range_raises_witness :
  (exists e,
     outcome (add_qr_to_pdf sample_qr_png (PdfOf sample_doc)
                [PosDict ∅; PosDict (<["page" := PyInt 5]> ∅)] sample_payload None)
     = Err e) /\
  Forall (fun ev => ~ is_save ev)
    (trace (add_qr_to_pdf sample_qr_png (PdfOf sample_doc)
              [PosDict ∅; PosDict (<["page" := PyInt 5]> ∅)] sample_payload None)).
Proof.
  apply (add_qr_to_pdf_page_out_of_range_raises sample_qr_png sample_doc
           [PosDict ∅; PosDict (<["page" := PyInt 5]> ∅)] sample_payload None
           (PosDict (<["page" := PyInt 5]> ∅)) 5).
  - apply list_elem_of_further, list_elem_of_here.
  - reflexivity.
  - vm_compute. discriminate.
Defined.

Lemma handlers_reject_non_pdf_witness :
  detect_sign_positions sample_search_for sample_not_pdf default_marker
  = HTTPException 500 "Error processing PDF: Failed to open stream" /\
  detect_and_add_qr sample_search_for sample_qr_png sample_not_pdf default_marker
    sample_payload None
  = HTTPException 500 "Error processing PDF: Failed to open stream" /\
  add_qr_codes sample_qr_png sample_json_loads sample_not_pdf "[{}]" sample_payload None
  = HTTPException 500 "Error adding QR codes: Failed to open stream".
Proof.
  exact (handlers_reject_non_pdf sample_search_for sample_qr_png sample_json_loads
           sample_not_pdf "Failed to open stream" default_marker "[{}]" [PosDict ∅]
           sample_payload None eq_refl eq_refl).
Defined.

Lemma add_qr_to_pdf_only_appends_witness :
  Forall2 (fun p p' => contents p `prefix_of` contents p') sample_doc sample_signed /\
  length (all_items sample_signed) = (length (all_items sample_doc) + 3 * 6)%nat.
Proof.
  exact (add_qr_to_pdf_only_appends sample_qr_png sample_doc sample_signed
           (of_SignPosition <$> sample_positions) sample_payload (Some "CERT-123")
           sample_signed_outcome).
Defined.

Lemma sample_first_page_outcome :
  outcome (add_qr_to_pdf sample_qr_png (PdfOf sample_doc) [PosDict ∅] sample_payload None)
  = Ok (PdfOf [place_qr sample_page1 50 50 120 120
                 (String.list_byte_of_string sample_payload) None; sample_page2]).
Proof. vm_compute. reflexivity. Qed.

Lemma untargeted_page_untouched_witness :
  [place_qr sample_page1 50 50 120 120 (String.list_byte_of_string sample_payload) None;
   sample_page2] !! 1%nat
  = sample_doc !! 1%nat.
Proof.
  apply (untargeted_page_untouched sample_qr_png sample_doc _ [PosDict ∅] sample_payload
           None 1 sample_first_page_outcome).
  intros pos v k pg Hpos Harg Hget.
  apply list_elem_of_singleton in Hpos. subst pos.
  injection Harg as <-. vm_compute in Hget. injection Hget as <- _. discriminate.
Defined.

Lemma unrenderable_payload_witness :
  outcome (add_qr_to_pdf sample_qr_png (PdfOf sample_doc) [] long_payload None)
  = Err (Raise "DataOverflowError" "Invalid version") /\
  detect_and_add_qr sample_search_for sample_qr_png sample_upload default_marker
    long_payload None
  = HTTPException 500 "Error processing PDF: Invalid version" /\
  detect_and_add_qr sample_search_for sample_qr_png sample_upload "[[NOPE]]"
    long_payload None
  = JSONResponse 404 (ErrorBody "No marker '[[NOPE]]' found in the document").
Proof.
  assert (sample_qr_png qr_settings long_payload
          = Err (Raise "DataOverflowError" "Invalid version")) as Hqr
    by (vm_compute; reflexivity).
  split; [|split].
  - exact (proj1 (unrenderable_payload sample_search_for sample_qr_png sample_upload
                    sample_doc [] default_marker long_payload None _ Hqr eq_refl)).
  - apply (proj1 (proj2 (unrenderable_payload sample_search_for sample_qr_png sample_upload
                           sample_doc [] default_marker long_payload None _ Hqr eq_refl))).
    vm_compute. lia.
  - apply (proj2 (proj2 (unrenderable_payload sample_search_for sample_qr_png sample_upload
                           sample_doc [] "[[NOPE]]" long_payload None _ Hqr eq_refl))).
    reflexivity.
Defined.

Lemma detect_and_add_qr_one_qr_per_occurrence_witness :
  exists doc' : Document,
    detect_and_add_qr sample_search_for sample_qr_png sample_upload default_marker
      sample_payload (Some "CERT-123")
    = FileResponse (PdfOf doc') "application/pdf" "signed_contract.pdf" /\
    page_count doc' = 2%Z /\
    images doc' ≡ₚ replicate 3 (String.list_byte_of_string sample_payload).
Proof.
  destruct (detect_and_add_qr_one_qr_per_occurrence sample_search_for sample_qr_png
              sample_upload sample_doc default_marker sample_payload (Some "CERT-123")
              (String.list_byte_of_string sample_payload) eq_refl eq_refl)
    as (doc' & Hresp & Hcount & Himages); [vm_compute; lia|].
  exists doc'. split; [exact Hresp|]. split; [exact Hcount|].
  rewrite Himages. reflexivity.
Defined.

Lemma placement_kept_when_it_fits_witness :
  (adjusted_x 50 595 == 60)%Q /\ (adjusted_y 50 842 == 20)%Q.
Proof.
  destruct (placement_kept_when_it_fits 50 50 595 842) as [Hx Hy];
    [vm_compute; discriminate..|].
  split; [exact Hx|exact Hy].
Defined.

Lemma small_page_pins_box_at_10_witness :
  (adjusted_x 300 72 == 10)%Q /\ (72 - 10 < adjusted_x 300 72 + qr_size)%Q /\
  (adjusted_y 300 72 == 10)%Q /\ (72 - 10 < adjusted_y 300 72 + qr_size)%Q.
Proof.
  destruct (small_page_pins_box_at_10 300 300 72 72) as (Hx & Hy & Hbottom).
  split; [exact (proj1 (Hx eq_refl))|]. split; [exact (proj2 (Hx eq_refl))|].
  split; [exact (Hy eq_refl)|exact (Hbottom eq_refl)].
Defined.

Lemma certificate_text_under_box_witness :
  (exists before,
     contents (place_qr sample_page2 400 800 80 12 [] (Some "CERT-123"))
     = before ++
         [InsertText (410, 742 + 60 + 2)%Q "Verified Document" 7
            (Some "Helvetica-Bold") (Some label_blue);
          InsertText (410, 742 + 60 + 2 + 10)%Q "CERT-123" 6 None None]) /\
  (742 + 60 + 2 + 10 <= 842 - 28)%Q.
Proof.
  destruct (certificate_text_under_box sample_page2 400 800 80 12 [] "CERT-123")
    as [Hitems Hroom]; [discriminate|].
  split; [exact Hitems|apply Hroom; vm_compute; discriminate].
Defined.

Lemma located_marker_is_covered_witness :
  exists (doc' : Document) pg' cover rest,
    compose_at [] None sample_doc
      (of_SignPosition (record_of 1 (mkRect 400 800 480 812))) = Ok doc' /\
    doc' !! 1%nat = Some pg' /\
    contents pg' = contents sample_page2 ++ DrawRect cover white white :: rest /\
    Rect_equiv cover (mkRect 400 800 480 812).
Proof.
  apply (located_marker_is_covered [] None sample_doc 1 sample_page2
           (mkRect 400 800 480 812) eq_refl); vm_compute; discriminate.
Defined.

Lemma non_numeric_field_raises_witness :
  exists e,
    compose_at [] None sample_doc (PosDict (<["width" := PyNone]> far_away)) = Err e.
Proof.
  apply (non_numeric_field_raises [] None sample_doc
           (<["width" := PyNone]> far_away) "width" PyNone).
  - do 2 apply list_elem_of_further. apply list_elem_of_here.
  - reflexivity.
  - left. reflexivity.
Defined.

Lemma located_records_by_page_witness :
  exists positions,
    outcome (find_marker_positions sample_search_for (PdfOf sample_doc) default_marker)
    = Ok positions /\
    filter (fun p => page p = 1%Z) positions
    = record_of 1 <$> sample_search_for sample_page2 default_marker /\
    Forall (fun p => is_Some (width p) /\ is_Some (height p)) positions.
Proof.
  exact (located_records_by_page sample_search_for sample_doc default_marker 1
           sample_page2 eq_refl).
Defined.

Lemma cors_credentials_only_for_True_witness :
  allow_credentials (cors_middleware ∅) = true /\
  allow_credentials (cors_middleware sample_environ) <> true.
Proof.
  split.
  - apply (proj2 (cors_credentials_only_for_True ∅)). left. reflexivity.
  - intros Hon. apply (proj1 (cors_credentials_only_for_True sample_environ)) in Hon.
    destruct Hon as [Hnone|Htrue]; vm_compute in *; discriminate.
Defined.

(** The CORS lists read from [sample_environ]: the blank after the comma
    stays in the second origin, the methods are the default four. *)
Example cors_middleware_sample :
  allow_origins (cors_middleware sample_environ)
  = ["https://a.example"; " https://b.example"] /\
  allow_methods (cors_middleware sample_environ) = ["GET"; "POST"; "PUT"; "DELETE"] /\
  allow_headers (cors_middleware sample_environ) = ["*"] /\
  split_comma EmptyString = [EmptyString] /\
  split_comma "a,,b," = ["a"; EmptyString; "b"; EmptyString].
Proof. repeat split; vm_compute; reflexivity. Qed.
